(** * Messenger backend: conversation and message controllers

    A shallow embedding of [app/controllers/conversation_controller.py]
    and [app/controllers/message_controller.py].

    Python [int] is [Z]; a [datetime] is its position on the time line,
    a [Z]; a [UUID] is its 128-bit value, an [N].  The Cassandra session
    is external to the controllers: it is modelled as a store of three
    tables, and every [session.execute] is logged, may raise, and may
    change the store.  Controllers are computations in a monad that
    threads the store, the log of executed statements and a pending
    Python exception. *)

From Stdlib Require Import ZArith String Bool List Lia Permutation.
Import ListNotations.
Local Open Scope string_scope.
Local Open Scope list_scope.
Local Open Scope Z_scope.

Set Implicit Arguments.

(** ** Python list slicing *)

Module Py.

(** How [list.__getitem__] normalises one bound of a slice of step 1
    against a list of length [n]. *)
Definition clamp (i n : Z) : Z :=
  if i <? 0 then Z.max (i + n) 0 else Z.min i n.

(** [l[a:b]] for arbitrary integers [a] and [b]. *)
Definition slice {A : Type} (l : list A) (a b : Z) : list A :=
  let n := Z.of_nat (length l) in
  let lo := clamp a n in
  let hi := clamp b n in
  firstn (Z.to_nat (hi - lo)) (skipn (Z.to_nat lo) l).

(** [len(l)] *)
Definition len {A : Type} (l : list A) : Z := Z.of_nat (length l).

End Py.

(** ** Rows of the three tables *)

Definition UUID := N.
Definition datetime := Z.

(** conversations_by_user(user_id, conversation_id, participant_id, last_updated) *)
Record ConversationByUserRow := mkConversationByUserRow {
  cbu_user_id : Z;
  cbu_conversation_id : Z;
  cbu_participant_id : Z;
  cbu_last_updated : datetime
}.

(** conversation_participants(conversation_id, participant_id) *)
Record ParticipantRow := mkParticipantRow {
  cp_conversation_id : Z;
  cp_participant_id : Z
}.

(** messages_by_conversation(conversation_id, message_id, sender_id, content, timestamp) *)
Record MessageRow := mkMessageRow {
  msg_conversation_id : Z;
  msg_message_id : UUID;
  msg_sender_id : Z;
  msg_content : string;
  msg_timestamp : datetime
}.

Record Store := mkStore {
  conversations_by_user : list ConversationByUserRow;
  conversation_participants : list ParticipantRow;
  messages_by_conversation : list MessageRow
}.

(** ** The statements the controllers execute *)

Inductive Statement :=
| SelectConversationsByUser (user_id : Z)
| SelectParticipants (conversation_id : Z)
| SelectMessages (conversation_id : Z) (limit : Z)
| SelectMessagesBefore (conversation_id : Z) (before : datetime) (limit : Z)
| InsertMessage (row : MessageRow)
| InsertParticipant (row : ParticipantRow)
| InsertConversationByUser (row : ConversationByUserRow).

Definition is_select (s : Statement) : bool :=
  match s with
  | SelectConversationsByUser _ | SelectParticipants _
  | SelectMessages _ _ | SelectMessagesBefore _ _ _ => true
  | InsertMessage _ | InsertParticipant _ | InsertConversationByUser _ => false
  end.

(** What [session.execute] hands back for each statement.  A SELECT
    yields the matching rows (the controllers read only the selected
    columns of them); an INSERT yields nothing. *)
Definition Rows (s : Statement) : Type :=
  match s with
  | SelectConversationsByUser _ => list ConversationByUserRow
  | SelectParticipants _ => list ParticipantRow
  | SelectMessages _ _ | SelectMessagesBefore _ _ _ => list MessageRow
  | InsertMessage _ | InsertParticipant _ | InsertConversationByUser _ => unit
  end.

(** ** The store *)

Module Table.

Section Upsert.
Variable Row : Type.
Variable same_key : Row -> Row -> bool.

(** Modelled from the spec: the table definitions are not part of the
    controllers.  An INSERT is an upsert: where a row with the primary
    key of the new one exists it is overwritten in place (and the table
    keeps one row for that key), otherwise the new row is added. *)
Fixpoint upsert (r : Row) (t : list Row) : list Row :=
  match t with
  | [] => [r]
  | x :: t' =>
      if same_key r x
      then r :: filter (fun y => negb (same_key r y)) t'
      else x :: upsert r t'
  end.

End Upsert.

(** Modelled from the spec: one row per (user, conversation) pair. *)
Definition cbu_key (a b : ConversationByUserRow) : bool :=
  (cbu_user_id a =? cbu_user_id b) && (cbu_conversation_id a =? cbu_conversation_id b).

(** Modelled from the spec: one row per participant per conversation. *)
Definition cp_key (a b : ParticipantRow) : bool :=
  (cp_conversation_id a =? cp_conversation_id b) && (cp_participant_id a =? cp_participant_id b).

(** Modelled from the spec: one row per message of a conversation,
    identified by its generated message_id. *)
Definition msg_key (a b : MessageRow) : bool :=
  (msg_conversation_id a =? msg_conversation_id b) && (msg_message_id a =? msg_message_id b)%N.

End Table.

(** The rows matching the WHERE clause of each SELECT, in the order the
    store holds them. *)
Definition rows_of_user (user_id : Z) (db : Store) : list ConversationByUserRow :=
  filter (fun r => cbu_user_id r =? user_id) (conversations_by_user db).

Definition participants_of (conversation_id : Z) (db : Store) : list ParticipantRow :=
  filter (fun r => cp_conversation_id r =? conversation_id)
         (conversation_participants db).

Definition messages_of (conversation_id : Z) (db : Store) : list MessageRow :=
  filter (fun r => msg_conversation_id r =? conversation_id)
         (messages_by_conversation db).

Definition messages_before (conversation_id : Z) (before : datetime) (db : Store)
  : list MessageRow :=
  filter (fun r => (msg_conversation_id r =? conversation_id)
                   && (msg_timestamp r <? before))
         (messages_by_conversation db).

(** The answer of the store to a statement that does not raise: the new
    store and the rows.  A SELECT returns the rows of its WHERE clause
    and leaves the store alone; LIMIT keeps a prefix of them (nothing,
    where a bound that is not positive is let through); an INSERT
    upserts its row into its table. *)
Definition answer (s : Statement) (db : Store) : Store * Rows s :=
  match s as s0 return Store * Rows s0 with
  | SelectConversationsByUser user_id => (db, rows_of_user user_id db)
  | SelectParticipants conversation_id => (db, participants_of conversation_id db)
  | SelectMessages conversation_id limit =>
      (db, firstn (Z.to_nat limit) (messages_of conversation_id db))
  | SelectMessagesBefore conversation_id before limit =>
      (db, firstn (Z.to_nat limit) (messages_before conversation_id before db))
  | InsertMessage row =>
      (mkStore (conversations_by_user db)
               (conversation_participants db)
               (Table.upsert Table.msg_key row (messages_by_conversation db)), tt)
  | InsertParticipant row =>
      (mkStore (conversations_by_user db)
               (Table.upsert Table.cp_key row (conversation_participants db))
               (messages_by_conversation db), tt)
  | InsertConversationByUser row =>
      (mkStore (Table.upsert Table.cbu_key row (conversations_by_user db))
               (conversation_participants db)
               (messages_by_conversation db), tt)
  end.

(** ** Python exceptions and the session *)

Inductive PyException :=
| HTTPException (status_code : Z) (detail : string)
| DriverError (message : string).

(** What lies outside the controllers: which statements the driver
    refuses or fails on (and with which message), and how [str(e)]
    renders an [HTTPException]. *)
Class Session := {
  driver_raises : Statement -> option string;
  http_exception_str : Z -> string -> string
}.

(** [str(e)] *)
Definition str `{Session} (e : PyException) : string :=
  match e with
  | HTTPException status_code detail => http_exception_str status_code detail
  | DriverError message => message
  end.

(** ** The monad of controller code *)

Definition M (A : Type) : Type :=
  Store -> Store * list Statement * (PyException + A).

Definition ret {A} (a : A) : M A := fun db => (db, [], inr a).

Definition raise {A} (e : PyException) : M A := fun db => (db, [], inl e).

Definition bind {A B} (m : M A) (k : A -> M B) : M B :=
  fun db =>
    match m db with
    | (db1, log1, inl e) => (db1, log1, inl e)
    | (db1, log1, inr a) =>
        match k a db1 with
        | (db2, log2, r) => (db2, log1 ++ log2, r)
        end
    end.

(** [try: body except Exception as e: handler(e)] *)
Definition try_except {A} (body : M A) (handler : PyException -> M A) : M A :=
  fun db =>
    match body db with
    | (db1, log1, inl e) =>
        match handler e db1 with
        | (db2, log2, r) => (db2, log1 ++ log2, r)
        end
    | (db1, log1, inr a) => (db1, log1, inr a)
    end.

(** [session.execute(stmt, params)] *)
Definition execute `{Session} (s : Statement) : M (Rows s) :=
  fun db =>
    match driver_raises s with
    | Some message => (db, [s], inl (DriverError message))
    | None => let (db', rows) := answer s db in (db', [s], inr rows)
    end.

(** [for x in xs: body(x)] *)
Fixpoint for_each {A} (xs : list A) (body : A -> M unit) : M unit :=
  match xs with
  | [] => ret tt
  | x :: xs' => bind (body x) (fun _ => for_each xs' body)
  end.

Notation "x <- m ;; k" := (bind m (fun x => k))
  (at level 61, m at next level, right associativity).
Notation "m ;;; k" := (bind m (fun _ => k))
  (at level 61, right associativity).

Definition store_after {A} (r : Store * list Statement * (PyException + A)) : Store :=
  fst (fst r).
Definition executed {A} (r : Store * list Statement * (PyException + A)) : list Statement :=
  snd (fst r).
Definition outcome {A} (r : Store * list Statement * (PyException + A)) : PyException + A :=
  snd r.

(** ** Request and response objects (app/schemas), as the controllers
    construct and read them *)

Record ConversationResponse := mkConversationResponse {
  cr_conversation_id : Z;
  cr_participant_id : Z;
  cr_last_updated : option datetime
}.

Record PaginatedConversationResponse := mkPaginatedConversationResponse {
  pc_conversations : list ConversationResponse;
  pc_page : Z;
  pc_limit : Z;
  pc_has_more : bool
}.

Record MessageCreate := mkMessageCreate {
  mc_conversation_id : Z;
  mc_sender_id : Z;
  mc_receiver_id : Z;
  mc_content : string
}.

Record MessageResponse := mkMessageResponse {
  mr_message_id : UUID;
  mr_conversation_id : Z;
  mr_sender_id : Z;
  mr_content : string;
  mr_timestamp : datetime
}.

Record PaginatedMessageResponse := mkPaginatedMessageResponse {
  pm_messages : list MessageResponse;
  pm_page : Z;
  pm_limit : Z;
  pm_has_more : bool
}.

(** ** ConversationController *)

Module ConversationController.
Section Controller.
Context `{Session}.

(** The [except Exception as e] clause shared by the read paths. *)
Definition internal_error {A} (e : PyException) : M A :=
  raise (HTTPException 500 (str e)).

Definition conversation_of_row (row : ConversationByUserRow) : ConversationResponse :=
  mkConversationResponse (cbu_conversation_id row) (cbu_participant_id row)
                         (Some (cbu_last_updated row)).

Definition get_user_conversations (user_id page limit : Z)
  : M PaginatedConversationResponse :=
  try_except
    (let offset := (page - 1) * limit in
     results <- execute (SelectConversationsByUser user_id) ;;
     let conversations := Py.slice results offset (offset + limit) in
     ret (mkPaginatedConversationResponse
            (map conversation_of_row conversations)
            page limit
            (Py.len conversations =? limit)))
    internal_error.

Definition get_conversation (conversation_id : Z) : M ConversationResponse :=
  try_except
    (result <- execute (SelectParticipants conversation_id) ;;
     let participants := map cp_participant_id result in
     match participants with
     | [] => raise (HTTPException 404 "Conversation not found")
     | participant0 :: _ =>
         ret (mkConversationResponse conversation_id participant0 None)
     end)
    internal_error.

End Controller.
End ConversationController.

(** ** MessageController *)

Module MessageController.
Section Controller.
Context `{Session}.

Definition internal_error {A} (e : PyException) : M A :=
  raise (HTTPException 500 (str e)).

(** [message_id] and [timestamp] are the values that [uuid4()] and
    [datetime.utcnow()] return in this call. *)
Definition send_message (message_data : MessageCreate)
                        (message_id : UUID) (timestamp : datetime)
  : M MessageResponse :=
  let conversation_id := mc_conversation_id message_data in
  execute (InsertMessage
             (mkMessageRow conversation_id message_id
                           (mc_sender_id message_data)
                           (mc_content message_data) timestamp)) ;;;
  for_each [mc_sender_id message_data; mc_receiver_id message_data]
    (fun user_id =>
       execute (InsertParticipant (mkParticipantRow conversation_id user_id))) ;;;
  for_each [mc_sender_id message_data; mc_receiver_id message_data]
    (fun user_id =>
       execute (InsertConversationByUser
                  (mkConversationByUserRow
                     user_id conversation_id
                     (if user_id =? mc_sender_id message_data
                      then mc_receiver_id message_data
                      else mc_sender_id message_data)
                     timestamp))) ;;;
  ret (mkMessageResponse message_id conversation_id
                         (mc_sender_id message_data)
                         (mc_content message_data) timestamp).

Definition message_of_row (conversation_id : Z) (row : MessageRow) : MessageResponse :=
  mkMessageResponse (msg_message_id row) conversation_id (msg_sender_id row)
                    (msg_content row) (msg_timestamp row).

Definition get_conversation_messages (conversation_id page limit : Z)
  : M PaginatedMessageResponse :=
  try_except
    (let offset := (page - 1) * limit in
     results <- execute (SelectMessages conversation_id (offset + limit)) ;;
     let messages := Py.slice results offset (offset + limit) in
     ret (mkPaginatedMessageResponse
            (map (message_of_row conversation_id) messages)
            page limit
            (Py.len messages =? limit)))
    internal_error.

Definition get_messages_before_timestamp
  (conversation_id : Z) (before_timestamp : datetime) (page limit : Z)
  : M PaginatedMessageResponse :=
  try_except
    (let offset := (page - 1) * limit in
     results <- execute (SelectMessagesBefore conversation_id before_timestamp
                                              (offset + limit)) ;;
     let messages := Py.slice results offset (offset + limit) in
     ret (mkPaginatedMessageResponse
            (map (message_of_row conversation_id) messages)
            page limit
            (Py.len messages =? limit)))
    internal_error.

End Controller.
End MessageController.

(** ** The methods from their first line

    Every method of the two controllers begins with
    [session = get_cassandra_session()], before any [try]; the
    definitions above are what follows that line.  The function belongs
    to app/db/cassandra_client, outside the controllers: whether it
    raises, and what, is a parameter. *)
Class Client := {
  session_raises : option PyException
}.

(** [get_cassandra_session()] *)
Definition get_cassandra_session `{Client} : M unit :=
  fun db =>
    match session_raises with
    | Some e => (db, [], inl e)
    | None => (db, [], inr tt)
    end.

Module Method.
Section Methods.
Context `{Session} `{Client}.

Definition get_user_conversations (user_id page limit : Z)
  : M PaginatedConversationResponse :=
  get_cassandra_session ;;;
  ConversationController.get_user_conversations user_id page limit.

Definition get_conversation (conversation_id : Z) : M ConversationResponse :=
  get_cassandra_session ;;;
  ConversationController.get_conversation conversation_id.

Definition send_message (message_data : MessageCreate)
                        (message_id : UUID) (timestamp : datetime)
  : M MessageResponse :=
  get_cassandra_session ;;;
  MessageController.send_message message_data message_id timestamp.

Definition get_conversation_messages (conversation_id page limit : Z)
  : M PaginatedMessageResponse :=
  get_cassandra_session ;;;
  MessageController.get_conversation_messages conversation_id page limit.

Definition get_messages_before_timestamp
  (conversation_id : Z) (before_timestamp : datetime) (page limit : Z)
  : M PaginatedMessageResponse :=
  get_cassandra_session ;;;
  MessageController.get_messages_before_timestamp
    conversation_id before_timestamp page limit.

End Methods.
End Method.

(** ** Two sessions to run the controllers on *)

(** A session on which no statement fails; [str] of an [HTTPException]
    is its detail. *)
Definition healthy : Session :=
  {| driver_raises := fun _ => None;
     http_exception_str := fun _ detail => detail |}.

(** A session that refuses a LIMIT that is not positive, as the store's
    query language does. *)
Definition strict_limit : Session :=
  {| driver_raises := fun s =>
       match s with
       | SelectMessages _ limit | SelectMessagesBefore _ _ limit =>
           if limit <=? 0 then Some "LIMIT must be strictly positive" else None
       | _ => None
       end;
     http_exception_str := fun _ detail => detail |}.

Definition empty_store : Store := mkStore [] [] [].

(** ** The pagination strategy in the words of the specification *)

Module Spec.

(** The slice [[(page-1)*limit, (page-1)*limit+limit)] of a row
    sequence: skip [(page-1)*limit] rows, keep at most [limit]. *)
Definition page_window {A : Type} (rows : list A) (page limit : Z) : list A :=
  firstn (Z.to_nat limit) (skipn (Z.to_nat ((page - 1) * limit)) rows).

(** Unbounded scan, then slice: all rows are read, the window is cut
    in memory, and [has_more] says whether the window is full. *)
Definition unbounded_scan_then_slice {A : Type} (rows : list A) (page limit : Z)
  : list A * bool :=
  let window := page_window rows page limit in
  (window, Z.of_nat (length window) =? limit).

End Spec.

(** ** What one send writes *)

(** The rows of conversations_by_user with a given primary key. *)
Definition keyed_by (user_id conversation_id : Z) (row : ConversationByUserRow) : bool :=
  (user_id =? cbu_user_id row) && (conversation_id =? cbu_conversation_id row).

Definition is_conversation_by_user_insert (s : Statement) : bool :=
  match s with
  | InsertConversationByUser _ => true
  | _ => false
  end.

(** The five writes of one send, in the order of the source. *)
Definition writes_of (message_data : MessageCreate) (message_id : UUID)
           (timestamp : datetime) : list Statement :=
  let conversation_id := mc_conversation_id message_data in
  let sender_id := mc_sender_id message_data in
  let receiver_id := mc_receiver_id message_data in
  [ InsertMessage (mkMessageRow conversation_id message_id sender_id
                                (mc_content message_data) timestamp);
    InsertParticipant (mkParticipantRow conversation_id sender_id);
    InsertParticipant (mkParticipantRow conversation_id receiver_id);
    InsertConversationByUser
      (mkConversationByUserRow sender_id conversation_id receiver_id timestamp);
    InsertConversationByUser
      (mkConversationByUserRow receiver_id conversation_id sender_id timestamp) ].

(** The store after a list of accepted statements. *)
Definition apply_all (ws : list Statement) (db : Store) : Store :=
  fold_left (fun db s => fst (answer s db)) ws db.

(** The conversation a write goes to, and the user whose listing it
    changes. *)
Definition written_conversation (w : Statement) : option Z :=
  match w with
  | InsertMessage row => Some (msg_conversation_id row)
  | InsertParticipant row => Some (cp_conversation_id row)
  | InsertConversationByUser row => Some (cbu_conversation_id row)
  | _ => None
  end.

Definition written_user (w : Statement) : option Z :=
  match w with
  | InsertConversationByUser row => Some (cbu_user_id row)
  | _ => None
  end.

(** ** Sample stores and responses *)

(** Conversation 7 with two participants, conversation 8 with one. *)
Definition two_participants : Store :=
  mkStore [] [mkParticipantRow 7 5; mkParticipantRow 8 1; mkParticipantRow 7 3] [].

(** A store with five conversations of user 1, four messages in
    conversation 7 and rows of other users and conversations around them. *)
Definition sample_store : Store :=
  mkStore
    [ mkConversationByUserRow 1 10 2 500;
      mkConversationByUserRow 2 10 1 500;
      mkConversationByUserRow 1 11 3 510;
      mkConversationByUserRow 1 12 4 520;
      mkConversationByUserRow 1 13 5 530;
      mkConversationByUserRow 1 14 6 540 ]
    [ mkParticipantRow 7 1; mkParticipantRow 7 2 ]
    [ mkMessageRow 7 1%N 1 "a" 100;
      mkMessageRow 8 2%N 3 "x" 150;
      mkMessageRow 7 3%N 2 "b" 200;
      mkMessageRow 7 4%N 1 "c" 300;
      mkMessageRow 7 5%N 2 "d" 400 ].

(** Page 2 of conversation 7 at two messages a page: the last two
    messages, and [has_more] set although nothing follows. *)
Definition sample_page_2 : PaginatedMessageResponse :=
  mkPaginatedMessageResponse
    [ mkMessageResponse 4%N 7 1 "c" 300; mkMessageResponse 5%N 7 2 "d" 400 ]
    2 2 true.

(** Messages of conversation 7 before time 300, first page of five. *)
Definition sample_before_300 : PaginatedMessageResponse :=
  mkPaginatedMessageResponse
    [ mkMessageResponse 1%N 7 1 "a" 100; mkMessageResponse 3%N 7 2 "b" 200 ]
    1 5 false.

(** Page -1 at two a page over the five conversations of user 1: the
    rows at positions 1 and 2, that is [rows[-4:-2]]. *)
Definition sample_page_minus_1 : PaginatedConversationResponse :=
  mkPaginatedConversationResponse
    [ mkConversationResponse 11 3 (Some 510); mkConversationResponse 12 4 (Some 520) ]
    (-1) 2 true.

(** * The test data generator (scripts/generate_test_data.py)

    The script talks to tables of its own (users, conversations,
    messages).  Its identifiers are UUIDs, a [datetime] is counted in
    microseconds, and what it does is the sequence of events it emits:
    log records, statements handed to the session, and the life of the
    cluster object. *)

Module Seed.

Inductive SeedStatement :=
| InsertUser (user_id : UUID) (name : string)
| InsertConversation (conversation_id user1_id user2_id : UUID) (start_time : datetime)
| InsertSeedMessage (message_id conversation_id sender_id : UUID)
                    (timestamp : datetime) (message_text : string).

Inductive Event :=
| LogInfo (text : string)
| LogError (text : string)
| ClusterCreated
| Exec (statement : SeedStatement)
| ClusterShutdown.

(** How [connect_to_cassandra] fares: [Cluster(...)] may raise, and
    [cluster.connect(...)] may raise once the cluster object exists. *)
Inductive ConnectOutcome :=
| Connected
| ClusterRaises (message : string)
| ConnectRaises (message : string).

(** What lies outside the script: the raw draws behind Python's
    [random], the values of successive [uuid.uuid4()] and
    [datetime.now()] calls, the statements the driver fails on, how the
    connection fares, and how values are rendered in f-strings. *)
Class Host := {
  entropy : nat -> nat;
  uuid_source : nat -> UUID;
  clock : nat -> datetime;
  seed_raises : SeedStatement -> option string;
  connect_outcome : ConnectOutcome;
  str_uuid : UUID -> string;
  str_datetime : datetime -> string;
  str_int : Z -> string
}.

(** How many times each outside source has been consulted. *)
Record Cursors := mkCursors {
  random_calls : nat;
  uuid_calls : nat;
  clock_calls : nat
}.

(** A run threads the cursors, emits events and may end in an
    exception, kept as its [str]. *)
Definition S (A : Type) : Type :=
  Cursors -> Cursors * list Event * (string + A).

Definition ret {A} (a : A) : S A := fun c => (c, [], inr a).

Definition raise {A} (message : string) : S A := fun c => (c, [], inl message).

Definition bind {A B} (m : S A) (k : A -> S B) : S B :=
  fun c =>
    match m c with
    | (c1, ev1, inl e) => (c1, ev1, inl e)
    | (c1, ev1, inr a) =>
        match k a c1 with
        | (c2, ev2, r) => (c2, ev1 ++ ev2, r)
        end
    end.

Declare Scope seed_scope.
Notation "x <- m ;; k" := (bind m (fun x => k))
  (at level 61, m at next level, right associativity) : seed_scope.
Notation "m ;;; k" := (bind m (fun _ => k))
  (at level 61, right associativity) : seed_scope.
Local Open Scope seed_scope.

Definition emit (e : Event) : S unit := fun c => (c, [e], inr tt).

(** [try: body except Exception as e: handler(e)] *)
Definition try_except {A} (body : S A) (handler : string -> S A) : S A :=
  fun c =>
    match body c with
    | (c1, ev1, inl e) =>
        match handler e c1 with
        | (c2, ev2, r) => (c2, ev1 ++ ev2, r)
        end
    | (c1, ev1, inr a) => (c1, ev1, inr a)
    end.

(** [try: body finally: cleanup]: the cleanup runs either way, and an
    exception of the body goes on after it. *)
Definition try_finally {A} (body : S A) (cleanup : S unit) : S A :=
  fun c =>
    match body c with
    | (c1, ev1, r) =>
        match cleanup c1 with
        | (c2, ev2, inl e) => (c2, ev1 ++ ev2, inl e)
        | (c2, ev2, inr _) => (c2, ev1 ++ ev2, r)
        end
    end.

(** [for _ in range(n): body] *)
Fixpoint repeat_n (n : nat) (body : S unit) : S unit :=
  match n with
  | O => ret tt
  | Datatypes.S n' => body ;;; repeat_n n' body
  end.

(** [for x in xs: body], where the body updates a local [acc]. *)
Fixpoint for_fold {A B} (xs : list A) (acc : B) (body : A -> B -> S B) : S B :=
  match xs with
  | [] => ret acc
  | x :: xs' => acc' <- body x acc ;; for_fold xs' acc' body
  end.

Section Script.
Context `{Host}.

Definition draw : S nat :=
  fun c => (mkCursors (Datatypes.S (random_calls c)) (uuid_calls c) (clock_calls c),
            [], inr (entropy (random_calls c))).

(** [uuid.uuid4()] *)
Definition uuid4 : S UUID :=
  fun c => (mkCursors (random_calls c) (Datatypes.S (uuid_calls c)) (clock_calls c),
            [], inr (uuid_source (uuid_calls c))).

(** [datetime.now()] *)
Definition now : S datetime :=
  fun c => (mkCursors (random_calls c) (uuid_calls c) (Datatypes.S (clock_calls c)),
            [], inr (clock (clock_calls c))).

(** [random.randint(a, b)]: an integer [N] with [a <= N <= b]. *)
Definition randint (a b : Z) : S Z :=
  raw <- draw ;; ret (a + Z.of_nat raw mod (b - a + 1)).

(** [random.sample(population, 2)]: the elements at two different
    positions, picked from a pool in which the first pick is replaced
    by the last element; a population of fewer than two raises. *)
Definition sample2 {A} (population : list A) : S (A * A) :=
  match population with
  | [] | [_] => raise "Sample larger than population or is negative"
  | first :: _ :: _ =>
      let n := length population in
      raw1 <- draw ;;
      raw2 <- draw ;;
      let i := (raw1 mod n)%nat in
      let j := (raw2 mod (n - 1))%nat in
      let j := if (j =? i)%nat then (n - 1)%nat else j in
      ret (nth i population first, nth j population first)
  end.

(** [random.choice([a, b])] *)
Definition choice2 {A} (a b : A) : S A :=
  raw <- draw ;; ret (if (raw mod 2 =? 0)%nat then a else b).

(** [timedelta(days=d)] and [timedelta(minutes=m)], in microseconds. *)
Definition timedelta_days (d : Z) : Z := d * 86400000000.
Definition timedelta_minutes (m : Z) : Z := m * 60000000.

(** [session.execute(statement, params)] *)
Definition execute (s : SeedStatement) : S unit :=
  fun c =>
    match seed_raises s with
    | Some message => (c, [Exec s], inl message)
    | None => (c, [Exec s], inr tt)
    end.

Definition logger_info (text : string) : S unit := emit (LogInfo text).
Definition logger_error (text : string) : S unit := emit (LogError text).

Definition NUM_USERS : Z := 10.
Definition NUM_CONVERSATIONS : nat := 15.
Definition MAX_MESSAGES_PER_CONVERSATION : Z := 50.

(** [range(1, NUM_USERS + 1)] *)
Definition user_numbers : list Z :=
  map Z.of_nat (seq 1 (Z.to_nat (NUM_USERS + 1 - 1))).

(** The cluster and the session are handles without content. *)
Definition connect_to_cassandra : S (unit * unit) :=
  logger_info "Connecting to Cassandra..." ;;;
  try_except
    (match connect_outcome with
     | ClusterRaises message => raise message
     | ConnectRaises message => emit ClusterCreated ;;; raise message
     | Connected =>
         emit ClusterCreated ;;;
         logger_info "Connected to Cassandra!" ;;;
         ret (tt, tt)
     end)
    (fun e =>
       logger_error ("Failed to connect to Cassandra: " ++ e) ;;;
       raise e).

(** The body of the loop over the messages of one conversation. *)
Definition create_message (conversation_id user1_id user2_id : UUID) : S unit :=
  sender_id <- choice2 user1_id user2_id ;;
  text_time <- now ;;
  let message_text :=
    ("Message from " ++ str_uuid sender_id ++ " at " ++ str_datetime text_time)%string in
  stamp_time <- now ;;
  minutes <- randint 1 60 ;;
  let message_timestamp := stamp_time - timedelta_minutes minutes in
  message_id <- uuid4 ;;
  execute (InsertSeedMessage message_id conversation_id sender_id
                             message_timestamp message_text) ;;;
  logger_info ("Created message (ID: " ++ str_uuid message_id
               ++ ") in conversation " ++ str_uuid conversation_id).

(** The body of the loop over the conversations. *)
Definition create_conversation (users : list UUID) : S unit :=
  pair <- sample2 users ;;
  let (user1_id, user2_id) := pair in
  conversation_id <- uuid4 ;;
  started <- now ;;
  days <- randint 1 30 ;;
  let start_time := started - timedelta_days days in
  execute (InsertConversation conversation_id user1_id user2_id start_time) ;;;
  logger_info ("Created conversation between " ++ str_uuid user1_id ++ " and "
               ++ str_uuid user2_id ++ " (ID: " ++ str_uuid conversation_id ++ ")") ;;;
  num_messages <- randint 1 MAX_MESSAGES_PER_CONVERSATION ;;
  repeat_n (Z.to_nat num_messages)
           (create_message conversation_id user1_id user2_id).

(** The body of the loop over the users. *)
Definition create_user (user_id : Z) (users : list UUID) : S (list UUID) :=
  user_uuid <- uuid4 ;;
  let users := users ++ [user_uuid] in
  let name := ("User " ++ str_int user_id)%string in
  execute (InsertUser user_uuid name) ;;;
  logger_info ("Created user: " ++ name ++ " (ID: " ++ str_uuid user_uuid ++ ")") ;;;
  ret users.

Definition generate_test_data : S unit :=
  logger_info "Generating test data..." ;;;
  logger_info "Generating test data..." ;;;
  users <- for_fold user_numbers [] create_user ;;
  repeat_n NUM_CONVERSATIONS (create_conversation users) ;;;
  logger_info ("Generated " ++ str_int (Z.of_nat NUM_CONVERSATIONS)
               ++ " conversations with messages") ;;;
  logger_info ("User IDs range from 1 to " ++ str_int NUM_USERS) ;;;
  logger_info "Use these IDs for testing the API endpoints".

(** [cluster] starts as [None] and is bound only when
    [connect_to_cassandra] returns; its exception is caught by the same
    [except] clause as those of the generation. *)
Definition main : S unit :=
  fun c =>
    match connect_to_cassandra c with
    | (c1, ev1, connected) =>
        let cluster :=
          match connected with
          | inr (cluster, _) => Some cluster
          | inl _ => None
          end in
        match
          try_finally
            (try_except
               (match connected with
                | inl e => raise e
                | inr (_, session) =>
                    generate_test_data ;;;
                    logger_info "Test data generation completed successfully!"
                end)
               (fun e => logger_error ("Error generating test data: " ++ e)))
            (match cluster with
             | Some _ =>
                 emit ClusterShutdown ;;;
                 logger_info "Cassandra connection closed"
             | None => ret tt
             end)
            c1
        with
        | (c2, ev2, r) => (c2, ev1 ++ ev2, r)
        end
    end.

End Script.

Definition start : Cursors := mkCursors 0 0 0.

Definition events {A} (r : Cursors * list Event * (string + A)) : list Event :=
  snd (fst r).
Definition result {A} (r : Cursors * list Event * (string + A)) : string + A :=
  snd r.

(** The statements among the events, in order. *)
Definition statements (evs : list Event) : list SeedStatement :=
  flat_map (fun e => match e with Exec s => [s] | _ => [] end) evs.

Definition is_user (s : SeedStatement) : bool :=
  match s with InsertUser _ _ => true | _ => false end.
Definition is_conversation (s : SeedStatement) : bool :=
  match s with InsertConversation _ _ _ _ => true | _ => false end.
Definition is_message (s : SeedStatement) : bool :=
  match s with InsertSeedMessage _ _ _ _ _ => true | _ => false end.

(** The events the generation itself may emit. *)
Definition is_log_or_statement (e : Event) : bool :=
  match e with LogInfo _ | Exec _ => true | _ => false end.

Section Shape.
Context `{Host}.

(** The user inserts for a list of created users, numbered from 1. *)
Definition user_statements (users : list UUID) : list SeedStatement :=
  map (fun p => InsertUser (snd p) ("User " ++ str_int (fst p)))
      (combine user_numbers users).

(** A message insert that belongs to a conversation: it names the
    conversation, its sender is one of the two users, and its time is a
    reading of the clock moved back by 1 to 60 minutes. *)
Definition message_for (conversation_id user1_id user2_id : UUID)
           (s : SeedStatement) : Prop :=
  match s with
  | InsertSeedMessage _ conversation_id' sender_id timestamp _ =>
      conversation_id' = conversation_id
      /\ (sender_id = user1_id \/ sender_id = user2_id)
      /\ exists k minutes,
           1 <= minutes <= 60
           /\ timestamp = clock k - timedelta_minutes minutes
  | _ => False
  end.

(** The statements of one conversation: its insert, between the users
    at two different positions of [users] and starting at a reading of
    the clock moved back by 1 to 30 days, then its message inserts. *)
Definition conversation_block (users : list UUID) (block : list SeedStatement)
  : Prop :=
  exists conversation_id user1_id user2_id start_time messages (i j : nat),
    block = InsertConversation conversation_id user1_id user2_id start_time
            :: messages
    /\ i <> j
    /\ nth_error users i = Some user1_id
    /\ nth_error users j = Some user2_id
    /\ (exists k days,
           1 <= days <= 30 /\ start_time = clock k - timedelta_days days)
    /\ (length messages <= 50)%nat
    /\ Forall (message_for conversation_id user1_id user2_id) messages.

(** A run in which the first refused statement is the last one. *)
Definition stops_at_refusal {A} (r : Cursors * list Event * (string + A)) : Prop :=
  (forall a, result r = inr a ->
             Forall (fun s => seed_raises s = None) (statements (events r)))
  /\ (forall e, result r = inl e ->
                exists before s,
                  statements (events r) = before ++ [s]
                  /\ Forall (fun s' => seed_raises s' = None) before
                  /\ seed_raises s = Some e).

End Shape.

End Seed.

(** ** Hosts to run the generator on *)

(** A host on which the connection is made and every statement is
    accepted. *)
Definition steady_host : Seed.Host :=
  {| Seed.entropy := fun k => (k * 7 + 3)%nat;
     Seed.uuid_source := fun k => N.of_nat (100 + k);
     Seed.clock := fun k => 1700000000000000 + Z.of_nat k;
     Seed.seed_raises := fun _ => None;
     Seed.connect_outcome := Seed.Connected;
     Seed.str_uuid := fun _ => "uuid";
     Seed.str_datetime := fun _ => "time";
     Seed.str_int := fun _ => "n" |}.

(** A host whose driver refuses every message insert. *)
Definition refusing_host : Seed.Host :=
  {| Seed.entropy := fun k => (k * 7 + 3)%nat;
     Seed.uuid_source := fun k => N.of_nat (100 + k);
     Seed.clock := fun k => 1700000000000000 + Z.of_nat k;
     Seed.seed_raises := fun s =>
       if Seed.is_message s then Some "unconfigured table messages" else None;
     Seed.connect_outcome := Seed.Connected;
     Seed.str_uuid := fun _ => "uuid";
     Seed.str_datetime := fun _ => "time";
     Seed.str_int := fun _ => "n" |}.

(** A host on which the cluster object is created and the connection
    then fails. *)
Definition unreachable_host : Seed.Host :=
  {| Seed.entropy := fun k => k;
     Seed.uuid_source := fun k => N.of_nat k;
     Seed.clock := fun k => Z.of_nat k;
     Seed.seed_raises := fun _ => None;
     Seed.connect_outcome := Seed.ConnectRaises "no host available";
     Seed.str_uuid := fun _ => "uuid";
     Seed.str_datetime := fun _ => "time";
     Seed.str_int := fun _ => "n" |}.

(** A client that hands out the session, and one that has none. *)
Definition ready : Client := {| session_raises := None |}.

Definition no_session : Client :=
  {| session_raises := Some (DriverError "Cassandra session is not initialised") |}.

(** A session whose driver refuses the writes to
    conversation_participants. *)
Definition refusing_participants : Session :=
  {| driver_raises := fun s =>
       match s with
       | InsertParticipant _ => Some "write timeout"
       | _ => None
       end;
     http_exception_str := fun _ detail => detail |}.

(** * Properties *)

(** ** Slices *)

Section SliceFacts.
Context {A : Type}.
Implicit Types (l : list A) (a b : Z).

Lemma slice_window l a b :
  0 <= a -> a <= b ->
  Py.slice l a b = firstn (Z.to_nat (b - a)) (skipn (Z.to_nat a) l).
Proof.
  intros Ha Hab. unfold Py.slice, Py.clamp.
  destruct (Z.ltb_spec a 0); [lia|].
  destruct (Z.ltb_spec b 0); [lia|].
  set (n := Z.of_nat (length l)).
  destruct (Z.le_gt_cases a n) as [Han|Han].
  - rewrite (Z.min_l a n) by lia.
    destruct (Z.le_gt_cases b n) as [Hbn|Hbn].
    + now rewrite (Z.min_l b n) by lia.
    + rewrite (Z.min_r b n) by lia.
      rewrite !firstn_all2; trivial; rewrite length_skipn; subst n; lia.
  - rewrite (Z.min_r a n) by lia.
    rewrite !(skipn_all2 (n:=_) l) by (subst n; lia).
    now rewrite !firstn_nil.
Qed.

Lemma slice_page l page limit :
  0 < page -> 0 < limit ->
  Py.slice l ((page - 1) * limit) ((page - 1) * limit + limit)
  = Spec.page_window l page limit.
Proof.
  intros Hp Hl. unfold Spec.page_window.
  rewrite slice_window by nia. do 2 f_equal. lia.
Qed.

Lemma slice_incl l a b x : In x (Py.slice l a b) -> In x l.
Proof.
  unfold Py.slice. cbv zeta.
  generalize (Z.to_nat (Py.clamp a (Z.of_nat (length l)))) as lo.
  generalize (Z.to_nat (Py.clamp b (Z.of_nat (length l))
                        - Py.clamp a (Z.of_nat (length l)))) as n.
  intros n lo Hx.
  rewrite <- (firstn_skipn lo l). apply in_or_app. right.
  rewrite <- (firstn_skipn n (skipn lo l)). apply in_or_app. now left.
Qed.

Lemma page_window_length l page limit :
  0 < limit -> Py.len (Spec.page_window l page limit) <= limit.
Proof.
  intros Hl. unfold Py.len, Spec.page_window.
  pose proof (firstn_le_length (Z.to_nat limit)
                (skipn (Z.to_nat ((page - 1) * limit)) l)). lia.
Qed.

Lemma page_window_firstn l page limit :
  0 < page -> 0 < limit ->
  Spec.page_window (firstn (Z.to_nat ((page - 1) * limit + limit)) l) page limit
  = Spec.page_window l page limit.
Proof.
  intros Hp Hl. unfold Spec.page_window.
  replace (Z.to_nat ((page - 1) * limit + limit))
    with (Z.to_nat ((page - 1) * limit) + Z.to_nat limit)%nat by nia.
  rewrite <- firstn_skipn_comm, firstn_firstn. f_equal. lia.
Qed.

Lemma page_window_full l page limit :
  0 < page -> 0 < limit ->
  page * limit <= Py.len l ->
  Py.len (Spec.page_window l page limit) = limit.
Proof.
  intros Hp Hl Hlen. unfold Py.len, Spec.page_window in *.
  rewrite length_firstn, length_skipn. nia.
Qed.

End SliceFacts.

(** ** Running the read paths *)

Section ReadPaths.
Context `{Session}.

Lemma answer_select_store s db : is_select s = true -> fst (answer s db) = db.
Proof. destruct s; simpl; congruence. Qed.

(** A read path is one SELECT whose rows are turned into a response
    inside [try]: it either answers from the rows or converts the
    driver's exception into status 500. *)
Lemma read_path_run {B} (s : Statement) (f : Rows s -> B)
      (handler : PyException -> M B) db :
  is_select s = true ->
  (forall e, handler e = raise (HTTPException 500 (str e))) ->
  try_except (rows <- execute s ;; ret (f rows)) handler db
  = match driver_raises s with
    | Some message => (db, [s], inl (HTTPException 500 message))
    | None => (db, [s], inr (f (snd (answer s db))))
    end.
Proof.
  intros Hs Hh. unfold try_except, bind, execute, ret.
  destruct (driver_raises s) as [message|].
  - rewrite Hh. reflexivity.
  - pose proof (answer_select_store s db Hs) as Hdb.
    destruct (answer s db) as [db' rows]. simpl in *. now subst db'.
Qed.

Lemma get_user_conversations_run user_id page limit db :
  ConversationController.get_user_conversations user_id page limit db
  = let s := SelectConversationsByUser user_id in
    let offset := (page - 1) * limit in
    match driver_raises s with
    | Some message => (db, [s], inl (HTTPException 500 message))
    | None =>
        let conversations := Py.slice (rows_of_user user_id db) offset (offset + limit) in
        (db, [s],
         inr (mkPaginatedConversationResponse
                (map ConversationController.conversation_of_row conversations)
                page limit (Py.len conversations =? limit)))
    end.
Proof.
  unfold ConversationController.get_user_conversations.
  cbv zeta. now rewrite read_path_run.
Qed.

Lemma get_conversation_messages_run conversation_id page limit db :
  MessageController.get_conversation_messages conversation_id page limit db
  = let offset := (page - 1) * limit in
    let s := SelectMessages conversation_id (offset + limit) in
    match driver_raises s with
    | Some message => (db, [s], inl (HTTPException 500 message))
    | None =>
        let messages :=
          Py.slice (firstn (Z.to_nat (offset + limit)) (messages_of conversation_id db))
                   offset (offset + limit) in
        (db, [s],
         inr (mkPaginatedMessageResponse
                (map (MessageController.message_of_row conversation_id) messages)
                page limit (Py.len messages =? limit)))
    end.
Proof.
  unfold MessageController.get_conversation_messages.
  cbv zeta. now rewrite read_path_run.
Qed.

Lemma get_messages_before_timestamp_run conversation_id before page limit db :
  MessageController.get_messages_before_timestamp conversation_id before page limit db
  = let offset := (page - 1) * limit in
    let s := SelectMessagesBefore conversation_id before (offset + limit) in
    match driver_raises s with
    | Some message => (db, [s], inl (HTTPException 500 message))
    | None =>
        let messages :=
          Py.slice (firstn (Z.to_nat (offset + limit))
                           (messages_before conversation_id before db))
                   offset (offset + limit) in
        (db, [s],
         inr (mkPaginatedMessageResponse
                (map (MessageController.message_of_row conversation_id) messages)
                page limit (Py.len messages =? limit)))
    end.
Proof.
  unfold MessageController.get_messages_before_timestamp.
  cbv zeta. now rewrite read_path_run.
Qed.

Lemma get_conversation_run conversation_id db :
  ConversationController.get_conversation conversation_id db
  = let s := SelectParticipants conversation_id in
    match driver_raises s with
    | Some message => (db, [s], inl (HTTPException 500 message))
    | None =>
        match participants_of conversation_id db with
        | [] => (db, [s], inl (HTTPException 500
                                 (http_exception_str 404 "Conversation not found")))
        | row :: _ =>
            (db, [s], inr (mkConversationResponse conversation_id
                                                  (cp_participant_id row) None))
        end
    end.
Proof.
  unfold ConversationController.get_conversation, try_except, bind, execute.
  cbv zeta. destruct (driver_raises _); [reflexivity|]. simpl.
  destruct (participants_of conversation_id db); reflexivity.
Qed.

Lemma execute_run s db :
  execute s db
  = match driver_raises s with
    | Some message => (db, [s], inl (DriverError message))
    | None => (fst (answer s db), [s], inr (snd (answer s db)))
    end.
Proof.
  unfold execute. destruct (driver_raises s); [reflexivity|].
  now destruct (answer s db).
Qed.

End ReadPaths.

Lemma In_firstn {A} (n : nat) (l : list A) x : In x (firstn n l) -> In x l.
Proof.
  intros Hx. rewrite <- (firstn_skipn n l). apply in_or_app. now left.
Qed.

Lemma len_map {A B} (f : A -> B) (l : list A) : Py.len (map f l) = Py.len l.
Proof. unfold Py.len. now rewrite length_map. Qed.

(** ** get_conversation *)

Section GetConversation.
Context `{Session}.
Import ConversationController.

(** C1 (the code departs from it).  When the participant lookup answers
    with zero rows, [get_conversation] raises the 404 inside its own
    [try], the [except Exception] clause catches it, and the caller
    receives status 500 carrying [str] of the 404 exception: never the
    404 itself. *)
Theorem get_conversation_empty_lookup_is_500 conversation_id db :
  outcome (execute (SelectParticipants conversation_id) db)
    = @inr PyException (list ParticipantRow) [] ->
  outcome (get_conversation conversation_id db)
    = inl (HTTPException 500 (http_exception_str 404 "Conversation not found"))
  /\ forall detail,
       outcome (get_conversation conversation_id db)
       <> inl (HTTPException 404 detail).
Proof.
  rewrite execute_run, get_conversation_run. cbv zeta.
  destruct (driver_raises _); simpl; [discriminate|].
  intros Hrows. injection Hrows as Hrows. rewrite Hrows. simpl.
  split; [reflexivity|]. intros detail Heq. discriminate.
Qed.

(** C8.  When the participant lookup answers with a non-empty sequence,
    [get_conversation] returns the conversation id it was given, the
    participant of the first row in the order the store returned them,
    and no last-updated value. *)
Theorem get_conversation_first_participant conversation_id db row rows :
  outcome (execute (SelectParticipants conversation_id) db)
    = @inr PyException (list ParticipantRow) (row :: rows) ->
  outcome (get_conversation conversation_id db)
    = inr (mkConversationResponse conversation_id (cp_participant_id row) None).
Proof.
  rewrite execute_run, get_conversation_run. cbv zeta.
  destruct (driver_raises _); simpl; [discriminate|].
  intros Hrows. injection Hrows as Hrows. now rewrite Hrows.
Qed.

End GetConversation.

Lemma get_conversation_empty_lookup_is_500_witness :
  outcome (@execute healthy (SelectParticipants 42) empty_store)
    = @inr PyException (list ParticipantRow) []
  /\ outcome (@ConversationController.get_conversation healthy 42 empty_store)
     = inl (HTTPException 500 "Conversation not found").
Proof.
  split; [reflexivity|].
  apply (@get_conversation_empty_lookup_is_500 healthy 42 empty_store).
  reflexivity.
Defined.

Lemma get_conversation_first_participant_witness :
  outcome (@ConversationController.get_conversation healthy 7 two_participants)
  = inr (mkConversationResponse 7 5 None).
Proof.
  apply (@get_conversation_first_participant healthy 7 two_participants
           (mkParticipantRow 7 5) [mkParticipantRow 7 3]).
  reflexivity.
Defined.

(** ** Pagination *)

Section Pagination.
Context `{Session}.
Import ConversationController MessageController.

(** C2.  For [page > 0] and [limit > 0], whenever the store answers
    the query of a paginated read with rows, the read returns, and
    what it returns are exactly the rows at positions
    [(page-1)*limit .. (page-1)*limit+limit-1] of that answer, fewer
    when the answer ends earlier, and so never more than [limit]
    items.  The answer to the listing is the rows of the user; for the
    two message reads the store was asked for a prefix only, and the
    window of the prefix is the window of all the rows of the query. *)
Theorem paginated_reads_return_page_window page limit :
  0 < page -> 0 < limit ->
  (forall user_id db rows,
      outcome (execute (SelectConversationsByUser user_id) db)
      = @inr PyException (list ConversationByUserRow) rows ->
      let window := Spec.page_window rows page limit in
      outcome (get_user_conversations user_id page limit db)
      = inr (mkPaginatedConversationResponse
               (map conversation_of_row window) page limit
               (Py.len window =? limit))
      /\ rows = rows_of_user user_id db
      /\ Py.len (map conversation_of_row window) <= limit)
  /\ (forall conversation_id db rows,
      outcome (execute (SelectMessages conversation_id
                          ((page - 1) * limit + limit)) db)
      = @inr PyException (list MessageRow) rows ->
      let window := Spec.page_window rows page limit in
      outcome (get_conversation_messages conversation_id page limit db)
      = inr (mkPaginatedMessageResponse
               (map (message_of_row conversation_id) window) page limit
               (Py.len window =? limit))
      /\ window = Spec.page_window (messages_of conversation_id db) page limit
      /\ Py.len (map (message_of_row conversation_id) window) <= limit)
  /\ (forall conversation_id before_timestamp db rows,
      outcome (execute (SelectMessagesBefore conversation_id before_timestamp
                          ((page - 1) * limit + limit)) db)
      = @inr PyException (list MessageRow) rows ->
      let window := Spec.page_window rows page limit in
      outcome (get_messages_before_timestamp conversation_id before_timestamp
                                             page limit db)
      = inr (mkPaginatedMessageResponse
               (map (message_of_row conversation_id) window) page limit
               (Py.len window =? limit))
      /\ window
         = Spec.page_window
             (messages_before conversation_id before_timestamp db) page limit
      /\ Py.len (map (message_of_row conversation_id) window) <= limit).
Proof.
  intros Hp Hl. split; [|split]; intros until rows.
  1: rewrite get_user_conversations_run.
  2: rewrite get_conversation_messages_run.
  3: rewrite get_messages_before_timestamp_run.
  all: rewrite execute_run; cbv zeta.
  all: destruct (driver_raises _); cbn [outcome snd fst answer]; [discriminate|].
  all: intros Hrows; injection Hrows as <-.
  all: rewrite !slice_page, len_map by assumption.
  all: split; [reflexivity|].
  all: split; [|now apply page_window_length].
  - reflexivity.
  - now apply page_window_firstn.
  - now apply page_window_firstn.
Qed.

(** C3.  In every paginated read that returns, [has_more] is true
    exactly when the number of returned items equals [limit] (whatever
    [page] and [limit] are).  In particular, for [page > 0] and
    [limit > 0], when the rows of the query end exactly with this page
    the flag is still true. *)
Theorem has_more_iff_count_is_limit page limit :
  (forall user_id db resp,
      outcome (get_user_conversations user_id page limit db) = inr resp ->
      (pc_has_more resp = true <-> Py.len (pc_conversations resp) = limit)
      /\ (0 < page -> 0 < limit ->
          Py.len (rows_of_user user_id db) = page * limit ->
          pc_has_more resp = true))
  /\ (forall conversation_id db resp,
      outcome (get_conversation_messages conversation_id page limit db) = inr resp ->
      (pm_has_more resp = true <-> Py.len (pm_messages resp) = limit)
      /\ (0 < page -> 0 < limit ->
          Py.len (messages_of conversation_id db) = page * limit ->
          pm_has_more resp = true))
  /\ (forall conversation_id before_timestamp db resp,
      outcome (get_messages_before_timestamp conversation_id before_timestamp
                                             page limit db) = inr resp ->
      (pm_has_more resp = true <-> Py.len (pm_messages resp) = limit)
      /\ (0 < page -> 0 < limit ->
          Py.len (messages_before conversation_id before_timestamp db)
          = page * limit ->
          pm_has_more resp = true)).
Proof.
  split; [|split]; intros until resp; intros Hrun.
  1: rewrite get_user_conversations_run in Hrun.
  2: rewrite get_conversation_messages_run in Hrun.
  3: rewrite get_messages_before_timestamp_run in Hrun.
  all: cbv zeta in Hrun; destruct (driver_raises _); simpl in Hrun; [discriminate|].
  all: injection Hrun as <-; simpl.
  all: rewrite ?len_map.
  all: split; [apply Z.eqb_eq|].
  all: intros Hp Hl Hlen; apply Z.eqb_eq.
  all: rewrite slice_page, ?page_window_firstn by assumption.
  all: apply page_window_full; trivial; lia.
Qed.

End Pagination.

Lemma paginated_reads_return_page_window_witness :
  (0 < 2 /\ 0 < 2
   /\ outcome (@execute healthy (SelectConversationsByUser 1) sample_store)
      = inr (rows_of_user 1 sample_store)
   /\ outcome (@ConversationController.get_user_conversations healthy 1 2 2
                 sample_store)
      = inr (mkPaginatedConversationResponse
               [ mkConversationResponse 12 4 (Some 520);
                 mkConversationResponse 13 5 (Some 530) ] 2 2 true))
  /\ (0 < 1 /\ 0 < 2
      /\ outcome (@execute healthy (SelectMessages 7 ((1 - 1) * 2 + 2)) sample_store)
         = inr [ mkMessageRow 7 1%N 1 "a" 100; mkMessageRow 7 3%N 2 "b" 200 ]
      /\ outcome (@MessageController.get_conversation_messages healthy 7 1 2
                    sample_store)
         = inr (mkPaginatedMessageResponse
                  [ mkMessageResponse 1%N 7 1 "a" 100;
                    mkMessageResponse 3%N 7 2 "b" 200 ] 1 2 true))
  /\ (0 < 2 /\ 0 < 1
      /\ outcome (@execute healthy (SelectMessagesBefore 7 400 ((2 - 1) * 1 + 1))
                    sample_store)
         = inr [ mkMessageRow 7 1%N 1 "a" 100; mkMessageRow 7 3%N 2 "b" 200 ]
      /\ outcome (@MessageController.get_messages_before_timestamp healthy 7 400 2 1
                    sample_store)
         = inr (mkPaginatedMessageResponse
                  [ mkMessageResponse 3%N 7 2 "b" 200 ] 2 1 true)).
Proof.
  split; [|split].
  - split; [reflexivity|]. split; [reflexivity|]. split; [reflexivity|].
    apply (proj1 (@paginated_reads_return_page_window healthy 2 2 eq_refl eq_refl)
             1 sample_store (rows_of_user 1 sample_store)).
    reflexivity.
  - split; [reflexivity|]. split; [reflexivity|]. split; [reflexivity|].
    apply (proj1 (proj2 (@paginated_reads_return_page_window healthy 1 2
                           eq_refl eq_refl))
             7 sample_store
             [ mkMessageRow 7 1%N 1 "a" 100; mkMessageRow 7 3%N 2 "b" 200 ]).
    reflexivity.
  - split; [reflexivity|]. split; [reflexivity|]. split; [reflexivity|].
    apply (proj2 (proj2 (@paginated_reads_return_page_window healthy 2 1
                           eq_refl eq_refl))
             7 400 sample_store
             [ mkMessageRow 7 1%N 1 "a" 100; mkMessageRow 7 3%N 2 "b" 200 ]).
    reflexivity.
Defined.

Lemma has_more_iff_count_is_limit_witness :
  outcome (@MessageController.get_conversation_messages healthy 7 2 2 sample_store)
  = inr sample_page_2
  /\ Py.len (messages_of 7 sample_store) = 2 * 2
  /\ pm_has_more sample_page_2 = true.
Proof.
  split; [reflexivity|]. split; [reflexivity|].
  apply (proj2 (proj1 (proj2 (@has_more_iff_count_is_limit healthy 2 2))
                  7 sample_store sample_page_2 eq_refl));
    reflexivity.
Defined.

Section BoundedFetch.
Context `{Session}.
Import ConversationController MessageController.

(** C5.  For [page > 0] and [limit > 0]: [get_user_conversations] is
    the unbounded strategy, whenever the store answers its query with
    rows it returns the page (items and [has_more]) that scanning those
    rows and slicing them gives; and [get_conversation_messages], which
    asks the store for the first [(page-1)*limit + limit] rows only,
    returns, whenever the store answers that bounded query, the page
    that the unbounded strategy gives over all the rows of the
    conversation, so the rows cut by LIMIT never matter. *)
Theorem bounded_fetch_equals_unbounded_scan page limit db :
  0 < page -> 0 < limit ->
  (forall conversation_id rows,
      outcome (execute (SelectMessages conversation_id
                          ((page - 1) * limit + limit)) db)
      = @inr PyException (list MessageRow) rows ->
      let all_rows := messages_of conversation_id db in
      rows = firstn (Z.to_nat ((page - 1) * limit + limit)) all_rows
      /\ outcome (get_conversation_messages conversation_id page limit db)
         = inr (mkPaginatedMessageResponse
                  (map (message_of_row conversation_id)
                       (fst (Spec.unbounded_scan_then_slice all_rows page limit)))
                  page limit
                  (snd (Spec.unbounded_scan_then_slice all_rows page limit))))
  /\ (forall user_id rows,
      outcome (execute (SelectConversationsByUser user_id) db)
      = @inr PyException (list ConversationByUserRow) rows ->
      rows = rows_of_user user_id db
      /\ outcome (get_user_conversations user_id page limit db)
         = inr (mkPaginatedConversationResponse
                  (map conversation_of_row
                       (fst (Spec.unbounded_scan_then_slice rows page limit)))
                  page limit
                  (snd (Spec.unbounded_scan_then_slice rows page limit)))).
Proof.
  intros Hp Hl. split; intros until rows.
  1: rewrite get_conversation_messages_run.
  2: rewrite get_user_conversations_run.
  all: rewrite execute_run; cbv zeta.
  all: destruct (driver_raises _); cbn [outcome snd fst answer]; [discriminate|].
  all: intros Hrows; injection Hrows as <-.
  all: split; [reflexivity|].
  all: rewrite !slice_page, ?page_window_firstn by assumption.
  all: reflexivity.
Qed.

(** C6.  Every message that [get_messages_before_timestamp] returns,
    for any page and limit, has a timestamp strictly below
    [before_timestamp]. *)
Theorem messages_before_timestamp_are_earlier
        conversation_id before_timestamp page limit db resp m :
  outcome (get_messages_before_timestamp conversation_id before_timestamp
                                         page limit db) = inr resp ->
  In m (pm_messages resp) ->
  mr_timestamp m < before_timestamp.
Proof.
  rewrite get_messages_before_timestamp_run. cbv zeta.
  destruct (driver_raises _); simpl; [discriminate|].
  intros Hrun. injection Hrun as <-. simpl. intros Hm.
  apply in_map_iff in Hm. destruct Hm as (row & <- & Hrow).
  apply slice_incl, In_firstn in Hrow.
  unfold messages_before in Hrow. apply filter_In in Hrow.
  destruct Hrow as [_ Hrow]. apply andb_prop in Hrow.
  simpl. now apply Z.ltb_lt.
Qed.

End BoundedFetch.

Lemma bounded_fetch_equals_unbounded_scan_witness :
  (0 < 1 /\ 0 < 2
   /\ outcome (@execute healthy (SelectMessages 7 ((1 - 1) * 2 + 2)) sample_store)
      = inr [ mkMessageRow 7 1%N 1 "a" 100; mkMessageRow 7 3%N 2 "b" 200 ]
   /\ Py.len (messages_of 7 sample_store) = 4
   /\ outcome (@MessageController.get_conversation_messages healthy 7 1 2
                 sample_store)
      = inr (mkPaginatedMessageResponse
               (map (MessageController.message_of_row 7)
                    (fst (Spec.unbounded_scan_then_slice
                            (messages_of 7 sample_store) 1 2)))
               1 2
               (snd (Spec.unbounded_scan_then_slice
                       (messages_of 7 sample_store) 1 2))))
  /\ (outcome (@execute healthy (SelectConversationsByUser 1) sample_store)
      = inr (rows_of_user 1 sample_store)
      /\ outcome (@ConversationController.get_user_conversations healthy 1 1 2
                    sample_store)
         = inr (mkPaginatedConversationResponse
                  (map ConversationController.conversation_of_row
                       (fst (Spec.unbounded_scan_then_slice
                               (rows_of_user 1 sample_store) 1 2)))
                  1 2
                  (snd (Spec.unbounded_scan_then_slice
                          (rows_of_user 1 sample_store) 1 2)))).
Proof.
  split.
  - split; [reflexivity|]. split; [reflexivity|]. split; [reflexivity|].
    split; [reflexivity|].
    apply (proj1 (@bounded_fetch_equals_unbounded_scan healthy 1 2 sample_store
                    eq_refl eq_refl)
             7 [ mkMessageRow 7 1%N 1 "a" 100; mkMessageRow 7 3%N 2 "b" 200 ]).
    reflexivity.
  - split; [reflexivity|].
    apply (proj2 (@bounded_fetch_equals_unbounded_scan healthy 1 2 sample_store
                    eq_refl eq_refl)
             1 (rows_of_user 1 sample_store)).
    reflexivity.
Defined.

Lemma messages_before_timestamp_are_earlier_witness :
  outcome (@MessageController.get_messages_before_timestamp healthy 7 300 1 5
             sample_store) = inr sample_before_300
  /\ In (mkMessageResponse 3%N 7 2 "b" 200) (pm_messages sample_before_300)
  /\ mr_timestamp (mkMessageResponse 3%N 7 2 "b" 200) < 300.
Proof.
  split; [reflexivity|]. split; [simpl; auto|].
  apply (@messages_before_timestamp_are_earlier healthy 7 300 1 5 sample_store
           sample_before_300 (mkMessageResponse 3%N 7 2 "b" 200)).
  - reflexivity.
  - simpl. auto.
Defined.

(** ** Pagination parameters are used as they come *)

Lemma slice_from_the_end {A} (l : list A) a b :
  a < 0 -> b < 0 ->
  Py.slice l a b
  = let n := Py.len l in
    firstn (Z.to_nat (Z.max (b + n) 0 - Z.max (a + n) 0))
           (skipn (Z.to_nat (Z.max (a + n) 0)) l).
Proof.
  intros Ha Hb. unfold Py.slice, Py.clamp, Py.len.
  destruct (Z.ltb_spec a 0); [|lia].
  destruct (Z.ltb_spec b 0); [|lia].
  reflexivity.
Qed.

Section NoValidation.
Context `{Session}.
Import ConversationController MessageController.

(** C9.  No paginated read looks at the sign of [page] or [limit].
    For all integers, the outcome is decided by the store's answer
    alone: an exception of the driver becomes status 500, and rows are
    cut with Python's slice at [(page-1)*limit] and
    [(page-1)*limit + limit] whatever their sign.  With [page < 0] and
    [limit > 0] both bounds are negative and the user's conversations
    are cut counting from the end of the sequence. *)
Theorem pagination_parameters_are_not_validated page limit db :
  (forall user_id,
      outcome (get_user_conversations user_id page limit db)
      = match outcome (execute (SelectConversationsByUser user_id) db) with
        | inl e => inl (HTTPException 500 (str e))
        | inr rows =>
            let conversations :=
              Py.slice rows ((page - 1) * limit) ((page - 1) * limit + limit) in
            inr (mkPaginatedConversationResponse
                   (map conversation_of_row conversations)
                   page limit (Py.len conversations =? limit))
        end)
  /\ (forall conversation_id,
      outcome (get_conversation_messages conversation_id page limit db)
      = match outcome (execute (SelectMessages conversation_id
                                  ((page - 1) * limit + limit)) db) with
        | inl e => inl (HTTPException 500 (str e))
        | inr rows =>
            let messages :=
              Py.slice rows ((page - 1) * limit) ((page - 1) * limit + limit) in
            inr (mkPaginatedMessageResponse
                   (map (message_of_row conversation_id) messages)
                   page limit (Py.len messages =? limit))
        end)
  /\ (forall conversation_id before_timestamp,
      outcome (get_messages_before_timestamp conversation_id before_timestamp
                                             page limit db)
      = match outcome (execute (SelectMessagesBefore conversation_id before_timestamp
                                  ((page - 1) * limit + limit)) db) with
        | inl e => inl (HTTPException 500 (str e))
        | inr rows =>
            let messages :=
              Py.slice rows ((page - 1) * limit) ((page - 1) * limit + limit) in
            inr (mkPaginatedMessageResponse
                   (map (message_of_row conversation_id) messages)
                   page limit (Py.len messages =? limit))
        end)
  /\ (forall user_id resp,
      page < 0 -> 0 < limit ->
      outcome (get_user_conversations user_id page limit db) = inr resp ->
      let rows := rows_of_user user_id db in
      let n := Py.len rows in
      pc_conversations resp
      = map conversation_of_row
            (firstn (Z.to_nat (Z.max (page * limit + n) 0
                               - Z.max ((page - 1) * limit + n) 0))
                    (skipn (Z.to_nat (Z.max ((page - 1) * limit + n) 0)) rows))).
Proof.
  split; [|split; [|split]].
  1: intros user_id; rewrite get_user_conversations_run.
  2: intros conversation_id; rewrite get_conversation_messages_run.
  3: intros conversation_id before_timestamp;
     rewrite get_messages_before_timestamp_run.
  1-3: rewrite execute_run; cbv zeta;
       destruct (driver_raises _); reflexivity.
  intros user_id resp Hp Hl Hrun rows n.
  rewrite get_user_conversations_run in Hrun. cbv zeta in Hrun.
  destruct (driver_raises _); simpl in Hrun; [discriminate|].
  injection Hrun as <-. simpl. rewrite slice_from_the_end by nia.
  cbv zeta. subst rows n. do 4 f_equal; lia.
Qed.

End NoValidation.

Lemma pagination_parameters_are_not_validated_witness :
  -1 < 0 /\ 0 < 2
  /\ outcome (@ConversationController.get_user_conversations healthy 1 (-1) 2
                sample_store) = inr sample_page_minus_1
  /\ pc_conversations sample_page_minus_1
     = map ConversationController.conversation_of_row
           (firstn 2 (skipn 1 (rows_of_user 1 sample_store))).
Proof.
  split; [reflexivity|]. split; [reflexivity|]. split; [reflexivity|].
  apply (proj2 (proj2 (proj2 (@pagination_parameters_are_not_validated healthy
                                (-1) 2 sample_store)))
           1 sample_page_minus_1 eq_refl eq_refl).
  reflexivity.
Defined.

(** ** Reads do not write *)

(** C10.  Each of the four read operations, returning or raising,
    leaves the store as it found it and executes SELECT statements
    only; [send_message] does change the store. *)
Theorem reads_leave_store_unchanged (S : Session) (db : Store) :
  (forall user_id page limit,
      let r := ConversationController.get_user_conversations user_id page limit db in
      store_after r = db /\ forallb is_select (executed r) = true)
  /\ (forall conversation_id,
      let r := ConversationController.get_conversation conversation_id db in
      store_after r = db /\ forallb is_select (executed r) = true)
  /\ (forall conversation_id page limit,
      let r := MessageController.get_conversation_messages conversation_id page limit db in
      store_after r = db /\ forallb is_select (executed r) = true)
  /\ (forall conversation_id before_timestamp page limit,
      let r := MessageController.get_messages_before_timestamp
                 conversation_id before_timestamp page limit db in
      store_after r = db /\ forallb is_select (executed r) = true)
  /\ (forall message_data message_id timestamp,
      store_after (@MessageController.send_message healthy message_data message_id
                     timestamp empty_store) <> empty_store).
Proof.
  split; [|split; [|split; [|split]]]; intros; try subst r.
  - rewrite get_user_conversations_run. cbv zeta.
    destruct (driver_raises _); simpl; auto.
  - rewrite get_conversation_run. cbv zeta.
    destruct (driver_raises _); [simpl; auto|].
    destruct (participants_of _ _); simpl; auto.
  - rewrite get_conversation_messages_run. cbv zeta.
    destruct (driver_raises _); simpl; auto.
  - rewrite get_messages_before_timestamp_run. cbv zeta.
    destruct (driver_raises _); simpl; auto.
  - destruct message_data as [c s r content]. simpl. discriminate.
Qed.

(** ** Upserts *)

Section UpsertFacts.
Variable Row : Type.
Variable same_key : Row -> Row -> bool.
Hypothesis same_key_refl : forall r, same_key r r = true.

Lemma filter_upsert_key (r : Row) (t : list Row) (p : Row -> bool) :
  (forall y, p y = same_key r y) ->
  filter p (Table.upsert same_key r t) = [r].
Proof.
  intros Hp. induction t as [|x t IH]; simpl.
  - now rewrite Hp, same_key_refl.
  - destruct (same_key r x) eqn:Hx; simpl.
    + rewrite Hp, same_key_refl. f_equal.
      clear IH. induction t as [|y t IH]; simpl; trivial.
      destruct (same_key r y) eqn:Hy; simpl; trivial.
      now rewrite Hp, Hy.
    + now rewrite Hp, Hx.
Qed.

Lemma filter_upsert_other (r : Row) (t : list Row) (q : Row -> bool) :
  (forall y, q y = true -> same_key r y = false) ->
  filter q (Table.upsert same_key r t) = filter q t.
Proof.
  intros Hq.
  assert (Hr : q r = false).
  { destruct (q r) eqn:E; trivial. apply Hq in E. now rewrite same_key_refl in E. }
  induction t as [|x t IH]; simpl.
  - now rewrite Hr.
  - destruct (same_key r x) eqn:Hx; simpl.
    + rewrite Hr.
      assert (Hqx : q x = false).
      { destruct (q x) eqn:E; trivial. apply Hq in E. congruence. }
      rewrite Hqx. clear IH. induction t as [|y t IH]; simpl; trivial.
      destruct (same_key r y) eqn:Hy; simpl.
      * destruct (q y) eqn:E; trivial. apply Hq in E. congruence.
      * now rewrite IH.
    + now rewrite IH.
Qed.

End UpsertFacts.

Lemma filter_either_length {A} (p q : A -> bool) (l : list A) :
  (forall x, p x = true -> q x = false) ->
  length (filter (fun x => p x || q x) l)
  = (length (filter p l) + length (filter q l))%nat.
Proof.
  intros Hpq. induction l as [|x l IH]; simpl; trivial.
  destruct (p x) eqn:Hp; simpl.
  - rewrite (Hpq x Hp). simpl. now rewrite IH.
  - destruct (q x); simpl; rewrite IH; lia.
Qed.

(** ** send_message *)

Section SendMessage.
Context `{Session}.
Import MessageController.

Lemma send_message_run message_data message_id timestamp db resp :
  outcome (send_message message_data message_id timestamp db) = inr resp ->
  send_message message_data message_id timestamp db
  = (fold_left (fun db s => fst (answer s db))
               (writes_of message_data message_id timestamp) db,
     writes_of message_data message_id timestamp,
     inr (mkMessageResponse message_id (mc_conversation_id message_data)
                            (mc_sender_id message_data)
                            (mc_content message_data) timestamp)).
Proof.
  destruct message_data as [c s r content].
  unfold send_message, writes_of, for_each, bind, execute, ret, outcome. simpl.
  rewrite Z.eqb_refl.
  assert (Hrow : (if r =? s then r else s) = s).
  { destruct (Z.eqb_spec r s); congruence. }
  rewrite Hrow.
  repeat (destruct (driver_raises _); simpl; [discriminate|]).
  reflexivity.
Qed.

Lemma send_message_outcome_any_store message_data message_id timestamp db db' :
  outcome (send_message message_data message_id timestamp db)
  = outcome (send_message message_data message_id timestamp db').
Proof.
  destruct message_data as [c s r content].
  unfold send_message, for_each, bind, execute, ret, outcome. simpl.
  repeat (destruct (driver_raises _); simpl; [reflexivity|]).
  reflexivity.
Qed.

End SendMessage.

Section SendMessageProperties.
Context `{Session}.
Import MessageController.

(** C7.  A [send_message] that returns hands back the message built
    from its own values: the identifier drawn from [uuid4] (a UUID,
    never absent), the timestamp read from the clock before the writes,
    and the conversation id, sender id and content of the request.  It
    executes no SELECT, and the response is the same on every store. *)
Theorem send_message_returns_local_values
        message_data message_id timestamp db resp :
  outcome (send_message message_data message_id timestamp db) = inr resp ->
  resp = mkMessageResponse message_id (mc_conversation_id message_data)
                           (mc_sender_id message_data)
                           (mc_content message_data) timestamp
  /\ forallb (fun s => negb (is_select s))
             (executed (send_message message_data message_id timestamp db)) = true
  /\ forall db',
       outcome (send_message message_data message_id timestamp db') = inr resp.
Proof.
  intros Hrun. pose proof (send_message_run _ _ _ _ Hrun) as Heq.
  split; [|split].
  - rewrite Heq in Hrun. simpl in Hrun. now injection Hrun as <-.
  - now rewrite Heq.
  - intros db'. now rewrite (send_message_outcome_any_store _ _ _ db' db).
Qed.

(** C4, amended.  After a [send_message] that returns, the table
    conversations_by_user holds exactly one row with key (sender,
    conversation), pointing at the receiver, and exactly one with key
    (receiver, conversation), pointing at the sender, both stamped with
    the timestamp of the message; every other row is as before.  These
    are two rows when sender and receiver differ, and one and the same
    row when they are equal.  The run executes two INSERTs into the
    table, one per participant. *)
Theorem send_message_fan_out message_data message_id timestamp db resp :
  outcome (send_message message_data message_id timestamp db) = inr resp ->
  let run := send_message message_data message_id timestamp db in
  let table := conversations_by_user (store_after run) in
  let conversation_id := mc_conversation_id message_data in
  let sender_id := mc_sender_id message_data in
  let receiver_id := mc_receiver_id message_data in
  filter (keyed_by sender_id conversation_id) table
  = [mkConversationByUserRow sender_id conversation_id receiver_id timestamp]
  /\ filter (keyed_by receiver_id conversation_id) table
     = [mkConversationByUserRow receiver_id conversation_id sender_id timestamp]
  /\ filter (fun row => negb (keyed_by sender_id conversation_id row
                              || keyed_by receiver_id conversation_id row)) table
     = filter (fun row => negb (keyed_by sender_id conversation_id row
                                || keyed_by receiver_id conversation_id row))
              (conversations_by_user db)
  /\ length (filter (fun row => keyed_by sender_id conversation_id row
                                || keyed_by receiver_id conversation_id row) table)
     = (if sender_id =? receiver_id then 1%nat else 2%nat)
  /\ filter is_conversation_by_user_insert (executed run)
     = [InsertConversationByUser
          (mkConversationByUserRow sender_id conversation_id receiver_id timestamp);
        InsertConversationByUser
          (mkConversationByUserRow receiver_id conversation_id sender_id timestamp)].
Proof.
  intros Hrun. cbv zeta. rewrite (send_message_run _ _ _ _ Hrun). clear Hrun.
  destruct message_data as [c s r content]. simpl.
  set (row_s := mkConversationByUserRow s c r timestamp).
  set (row_r := mkConversationByUserRow r c s timestamp).
  set (t := conversations_by_user db).
  assert (Hrefl : forall x, Table.cbu_key x x = true).
  { intros x. unfold Table.cbu_key. now rewrite !Z.eqb_refl. }
  assert (Hr : filter (keyed_by r c) (Table.upsert Table.cbu_key row_r
                                        (Table.upsert Table.cbu_key row_s t))
               = [row_r]).
  { now apply filter_upsert_key. }
  assert (Hs : filter (keyed_by s c) (Table.upsert Table.cbu_key row_r
                                        (Table.upsert Table.cbu_key row_s t))
               = [row_s]).
  { destruct (Z.eqb_spec s r) as [->|Hne].
    - exact Hr.
    - rewrite filter_upsert_other; trivial.
      + now apply filter_upsert_key.
      + intros y Hy. unfold keyed_by in Hy. apply andb_prop in Hy.
        destruct Hy as [Hu _]. apply Z.eqb_eq in Hu.
        unfold Table.cbu_key, row_r. simpl.
        destruct (Z.eqb_spec r (cbu_user_id y)); [congruence|reflexivity]. }
  split; [exact Hs|]. split; [exact Hr|]. split; [|split; [|reflexivity]].
  - rewrite !filter_upsert_other; trivial.
    + intros y Hy. apply negb_true_iff, orb_false_iff in Hy.
      destruct Hy as [Hy _]. exact Hy.
    + intros y Hy. apply negb_true_iff, orb_false_iff in Hy.
      destruct Hy as [_ Hy]. exact Hy.
  - destruct (Z.eqb_spec s r) as [->|Hne].
    + rewrite (filter_ext _ (keyed_by r c)).
      * now rewrite Hr.
      * intros y. apply orb_diag.
    + rewrite filter_either_length.
      * now rewrite Hs, Hr.
      * intros y Hy. unfold keyed_by in *. apply andb_prop in Hy.
        destruct Hy as [Hu _]. apply Z.eqb_eq in Hu.
        destruct (Z.eqb_spec r (cbu_user_id y)); [congruence|reflexivity].
Qed.

End SendMessageProperties.

Lemma send_message_returns_local_values_witness :
  outcome (@MessageController.send_message healthy (mkMessageCreate 7 1 2 "hi")
             99%N 1000 sample_store)
  = inr (mkMessageResponse 99%N 7 1 "hi" 1000)
  /\ forall db',
       outcome (@MessageController.send_message healthy (mkMessageCreate 7 1 2 "hi")
                  99%N 1000 db')
       = inr (mkMessageResponse 99%N 7 1 "hi" 1000).
Proof.
  split; [reflexivity|].
  apply (@send_message_returns_local_values healthy (mkMessageCreate 7 1 2 "hi")
           99%N 1000 sample_store (mkMessageResponse 99%N 7 1 "hi" 1000)).
  reflexivity.
Defined.

Lemma send_message_fan_out_witness :
  outcome (@MessageController.send_message healthy (mkMessageCreate 10 1 2 "hi")
             99%N 1000 sample_store)
  = inr (mkMessageResponse 99%N 10 1 "hi" 1000)
  /\ filter (keyed_by 1 10)
            (conversations_by_user
               (store_after (@MessageController.send_message healthy
                               (mkMessageCreate 10 1 2 "hi") 99%N 1000 sample_store)))
     = [mkConversationByUserRow 1 10 2 1000].
Proof.
  split; [reflexivity|].
  apply (@send_message_fan_out healthy (mkMessageCreate 10 1 2 "hi")
           99%N 1000 sample_store (mkMessageResponse 99%N 10 1 "hi" 1000)).
  reflexivity.
Defined.

(** C4 as stated fails: a message whose sender is also its receiver
    leaves one row, not two.  Both INSERTs carry the same primary key
    and the second overwrites the first. *)
Lemma send_message_to_self_leaves_one_row :
  outcome (@MessageController.send_message healthy (mkMessageCreate 7 1 1 "hi")
             99%N 1000 empty_store)
  = inr (mkMessageResponse 99%N 7 1 "hi" 1000)
  /\ conversations_by_user
       (store_after (@MessageController.send_message healthy
                       (mkMessageCreate 7 1 1 "hi") 99%N 1000 empty_store))
     = [mkConversationByUserRow 1 7 1 1000]
  /\ length (conversations_by_user
               (store_after (@MessageController.send_message healthy
                               (mkMessageCreate 7 1 1 "hi") 99%N 1000 empty_store)))
     <> 2%nat.
Proof.
  split; [reflexivity|]. split; [reflexivity|]. simpl. discriminate.
Qed.

(** ** The store may refuse what the controllers let through *)

(** On a session that refuses a LIMIT that is not positive, page 0 of a
    conversation's messages fails in the store and comes back as status
    500; the conversations of a user, read without LIMIT, come back as
    an empty page. *)
Example page_zero_on_strict_limit :
  outcome (@MessageController.get_conversation_messages strict_limit 7 0 2 sample_store)
  = inl (HTTPException 500 "LIMIT must be strictly positive")
  /\ outcome (@ConversationController.get_user_conversations strict_limit 1 0 2
                sample_store)
     = inr (mkPaginatedConversationResponse [] 0 2 false).
Proof. split; reflexivity. Qed.

(** * Further properties of the controllers *)

(** ** Windows of a row sequence *)

Section WindowFacts.
Context {A : Type}.
Implicit Types (l : list A) (page limit : Z).

Lemma page_window_len l page limit :
  0 < page -> 0 < limit ->
  Py.len (Spec.page_window l page limit)
  = Z.max 0 (Z.min limit (Py.len l - (page - 1) * limit)).
Proof.
  intros Hp Hl. unfold Py.len, Spec.page_window.
  rewrite length_firstn, length_skipn. nia.
Qed.

Lemma page_window_next_empty l page limit :
  0 < page -> 0 < limit ->
  Py.len (Spec.page_window l page limit) <> limit ->
  Spec.page_window l (page + 1) limit = [].
Proof.
  intros Hp Hl Hlen. rewrite page_window_len in Hlen by assumption.
  unfold Spec.page_window, Py.len in *.
  rewrite skipn_all2; [apply firstn_nil|]. nia.
Qed.

Lemma firstn_plus (n m : nat) l :
  firstn (n + m) l = firstn n l ++ firstn m (skipn n l).
Proof.
  revert l. induction n as [|n IH]; intros [|x l]; simpl; trivial.
  - now rewrite firstn_nil.
  - now rewrite IH.
Qed.

Lemma page_windows_concat l limit (k : nat) :
  0 < limit ->
  concat (map (fun p => Spec.page_window l (Z.of_nat p) limit) (seq 1 k))
  = firstn (k * Z.to_nat limit) l.
Proof.
  intros Hl. induction k as [|k IH]; [reflexivity|].
  rewrite seq_S, map_app, concat_app, IH. cbn [map concat].
  rewrite app_nil_r. unfold Spec.page_window.
  replace (Z.to_nat ((Z.of_nat (1 + k) - 1) * limit))
    with (k * Z.to_nat limit)%nat by nia.
  replace (S k * Z.to_nat limit)%nat
    with (k * Z.to_nat limit + Z.to_nat limit)%nat by lia.
  now rewrite firstn_plus.
Qed.

Lemma slice_segment l (a b : Z) :
  exists before after, l = before ++ Py.slice l a b ++ after.
Proof.
  unfold Py.slice. cbv zeta.
  generalize (Z.to_nat (Py.clamp a (Z.of_nat (length l)))) as lo.
  generalize (Z.to_nat (Py.clamp b (Z.of_nat (length l))
                        - Py.clamp a (Z.of_nat (length l)))) as n.
  intros n lo. exists (firstn lo l), (skipn n (skipn lo l)).
  now rewrite (firstn_skipn n), (firstn_skipn lo).
Qed.

End WindowFacts.

Lemma Forall2_seq_map_eq {B C} (g : B -> C) (h : nat -> C)
      (R : nat -> B -> Prop) (start n : nat) ys :
  (forall p y, (start <= p)%nat -> R p y -> g y = h p) ->
  Forall2 R (seq start n) ys -> map g ys = map h (seq start n).
Proof.
  revert start ys. induction n as [|n IH]; intros start ys Hgh HF; simpl in *.
  - now inversion HF.
  - inversion HF as [|p y ps ys' Hpy Hrest]; subst. simpl. f_equal.
    + apply Hgh; [lia|assumption].
    + apply IH; [|assumption]. intros p y' Hle. apply Hgh. lia.
Qed.

(** ** What a page of each read is *)

Section Pages.
Context `{Session}.
Import ConversationController MessageController.

Lemma get_user_conversations_page user_id page limit db resp :
  0 < page -> 0 < limit ->
  outcome (get_user_conversations user_id page limit db) = inr resp ->
  let window := Spec.page_window (rows_of_user user_id db) page limit in
  resp = mkPaginatedConversationResponse
           (map conversation_of_row window) page limit (Py.len window =? limit).
Proof.
  intros Hp Hl. rewrite get_user_conversations_run. cbv zeta.
  destruct (driver_raises _); simpl; [discriminate|].
  intros Hrun. injection Hrun as <-. now rewrite !slice_page.
Qed.

Lemma get_conversation_messages_page conversation_id page limit db resp :
  0 < page -> 0 < limit ->
  outcome (get_conversation_messages conversation_id page limit db) = inr resp ->
  let window := Spec.page_window (messages_of conversation_id db) page limit in
  resp = mkPaginatedMessageResponse
           (map (message_of_row conversation_id) window) page limit
           (Py.len window =? limit).
Proof.
  intros Hp Hl. rewrite get_conversation_messages_run. cbv zeta.
  destruct (driver_raises _); simpl; [discriminate|].
  intros Hrun. injection Hrun as <-.
  now rewrite !slice_page, !page_window_firstn.
Qed.

Lemma get_messages_before_timestamp_page conversation_id before page limit db resp :
  0 < page -> 0 < limit ->
  outcome (get_messages_before_timestamp conversation_id before page limit db)
  = inr resp ->
  let window :=
    Spec.page_window (messages_before conversation_id before db) page limit in
  resp = mkPaginatedMessageResponse
           (map (message_of_row conversation_id) window) page limit
           (Py.len window =? limit).
Proof.
  intros Hp Hl. rewrite get_messages_before_timestamp_run. cbv zeta.
  destruct (driver_raises _); simpl; [discriminate|].
  intros Hrun. injection Hrun as <-.
  now rewrite !slice_page, !page_window_firstn.
Qed.

End Pages.

Lemma slice_empty_range {A} (l : list A) a : Py.slice l a a = [].
Proof. unfold Py.slice. now rewrite Z.sub_diag. Qed.

Lemma slice_stop_zero {A} (l : list A) a : Py.slice l a 0 = [].
Proof.
  unfold Py.slice, Py.clamp. cbv zeta.
  replace (Z.to_nat _) with 0%nat; [reflexivity|].
  change (0 <? 0) with false. cbv iota.
  destruct (Z.ltb_spec a 0); lia.
Qed.

Lemma firstn_segment {A} (n : nat) (l seg : list A) before after :
  firstn n l = before ++ seg ++ after ->
  exists after', l = before ++ seg ++ after'.
Proof.
  intros Heq. exists (after ++ skipn n l).
  rewrite <- (firstn_skipn n l) at 1. rewrite Heq.
  now rewrite <- !app_assoc.
Qed.

Section PageProperties.
Context `{Session}.
Import ConversationController MessageController.

(** For [page > 0] and [limit > 0], [has_more] is true exactly when the
    rows of the query reach the end of the page, that is when there are
    at least [page * limit] of them. *)
Theorem has_more_iff_rows_reach_page_end page limit :
  0 < page -> 0 < limit ->
  (forall user_id db resp,
      outcome (get_user_conversations user_id page limit db) = inr resp ->
      (pc_has_more resp = true <-> page * limit <= Py.len (rows_of_user user_id db)))
  /\ (forall conversation_id db resp,
      outcome (get_conversation_messages conversation_id page limit db) = inr resp ->
      (pm_has_more resp = true
       <-> page * limit <= Py.len (messages_of conversation_id db)))
  /\ (forall conversation_id before_timestamp db resp,
      outcome (get_messages_before_timestamp conversation_id before_timestamp
                                             page limit db) = inr resp ->
      (pm_has_more resp = true
       <-> page * limit
           <= Py.len (messages_before conversation_id before_timestamp db))).
Proof.
  intros Hp Hl. split; [|split]; intros until resp; intros Hrun.
  1: apply get_user_conversations_page in Hrun; trivial.
  2: apply get_conversation_messages_page in Hrun; trivial.
  3: apply get_messages_before_timestamp_page in Hrun; trivial.
  all: subst resp; simpl; rewrite Z.eqb_eq, page_window_len by assumption; nia.
Qed.

(** For [page > 0] and [limit > 0] on an unchanged store, a page whose
    [has_more] is false is the last one: the next page has no items and
    its [has_more] is false too. *)
Theorem no_more_means_next_page_empty page limit db :
  0 < page -> 0 < limit ->
  (forall user_id resp next,
      outcome (get_user_conversations user_id page limit db) = inr resp ->
      outcome (get_user_conversations user_id (page + 1) limit db) = inr next ->
      pc_has_more resp = false ->
      pc_conversations next = [] /\ pc_has_more next = false)
  /\ (forall conversation_id resp next,
      outcome (get_conversation_messages conversation_id page limit db) = inr resp ->
      outcome (get_conversation_messages conversation_id (page + 1) limit db)
      = inr next ->
      pm_has_more resp = false ->
      pm_messages next = [] /\ pm_has_more next = false)
  /\ (forall conversation_id before_timestamp resp next,
      outcome (get_messages_before_timestamp conversation_id before_timestamp
                                             page limit db) = inr resp ->
      outcome (get_messages_before_timestamp conversation_id before_timestamp
                                             (page + 1) limit db) = inr next ->
      pm_has_more resp = false ->
      pm_messages next = [] /\ pm_has_more next = false).
Proof.
  intros Hp Hl. split; [|split]; intros until next; intros Hrun Hnext Hmore.
  1: apply get_user_conversations_page in Hrun, Hnext; try lia.
  2: apply get_conversation_messages_page in Hrun, Hnext; try lia.
  3: apply get_messages_before_timestamp_page in Hrun, Hnext; try lia.
  all: subst resp next; simpl in *; apply Z.eqb_neq in Hmore.
  all: rewrite page_window_next_empty by assumption.
  all: split; [reflexivity|]; apply Z.eqb_neq; unfold Py.len; simpl; lia.
Qed.

(** For [limit > 0] on an unchanged store, pages 1 to [k] put end to
    end are the first [k * limit] rows of the query: no row is skipped
    and none comes twice. *)
Theorem pages_concatenate_to_prefix limit (k : nat) db :
  0 < limit ->
  (forall user_id resps,
      Forall2 (fun p resp =>
                 outcome (get_user_conversations user_id (Z.of_nat p) limit db)
                 = inr resp) (seq 1 k) resps ->
      concat (map pc_conversations resps)
      = map conversation_of_row
            (firstn (k * Z.to_nat limit) (rows_of_user user_id db)))
  /\ (forall conversation_id resps,
      Forall2 (fun p resp =>
                 outcome (get_conversation_messages conversation_id (Z.of_nat p)
                                                    limit db)
                 = inr resp) (seq 1 k) resps ->
      concat (map pm_messages resps)
      = map (message_of_row conversation_id)
            (firstn (k * Z.to_nat limit) (messages_of conversation_id db)))
  /\ (forall conversation_id before_timestamp resps,
      Forall2 (fun p resp =>
                 outcome (get_messages_before_timestamp
                            conversation_id before_timestamp (Z.of_nat p) limit db)
                 = inr resp) (seq 1 k) resps ->
      concat (map pm_messages resps)
      = map (message_of_row conversation_id)
            (firstn (k * Z.to_nat limit)
                    (messages_before conversation_id before_timestamp db))).
Proof.
  intros Hl. split; [|split]; intros until resps; intros Hpages.
  all: rewrite <- page_windows_concat by assumption.
  all: rewrite concat_map, map_map; f_equal.
  all: eapply Forall2_seq_map_eq; [|exact Hpages].
  all: intros p resp Hp Hrun; simpl in Hrun.
  1: apply get_user_conversations_page in Hrun; try lia.
  2: apply get_conversation_messages_page in Hrun; try lia.
  3: apply get_messages_before_timestamp_page in Hrun; try lia.
  all: now subst resp.
Qed.

End PageProperties.

(** ** Pages for any integers *)

Section AnyPage.
Context `{Session}.
Import ConversationController MessageController.

Lemma get_user_conversations_sliced user_id page limit db resp :
  outcome (get_user_conversations user_id page limit db) = inr resp ->
  let conversations :=
    Py.slice (rows_of_user user_id db)
             ((page - 1) * limit) ((page - 1) * limit + limit) in
  resp = mkPaginatedConversationResponse
           (map conversation_of_row conversations) page limit
           (Py.len conversations =? limit).
Proof.
  rewrite get_user_conversations_run. cbv zeta.
  destruct (driver_raises _); simpl; [discriminate|].
  intros Hrun. now injection Hrun as <-.
Qed.

Lemma get_conversation_messages_sliced conversation_id page limit db resp :
  outcome (get_conversation_messages conversation_id page limit db) = inr resp ->
  let messages :=
    Py.slice (firstn (Z.to_nat ((page - 1) * limit + limit))
                     (messages_of conversation_id db))
             ((page - 1) * limit) ((page - 1) * limit + limit) in
  resp = mkPaginatedMessageResponse
           (map (message_of_row conversation_id) messages) page limit
           (Py.len messages =? limit).
Proof.
  rewrite get_conversation_messages_run. cbv zeta.
  destruct (driver_raises _); simpl; [discriminate|].
  intros Hrun. now injection Hrun as <-.
Qed.

Lemma get_messages_before_timestamp_sliced conversation_id before page limit db resp :
  outcome (get_messages_before_timestamp conversation_id before page limit db)
  = inr resp ->
  let messages :=
    Py.slice (firstn (Z.to_nat ((page - 1) * limit + limit))
                     (messages_before conversation_id before db))
             ((page - 1) * limit) ((page - 1) * limit + limit) in
  resp = mkPaginatedMessageResponse
           (map (message_of_row conversation_id) messages) page limit
           (Py.len messages =? limit).
Proof.
  rewrite get_messages_before_timestamp_run. cbv zeta.
  destruct (driver_raises _); simpl; [discriminate|].
  intros Hrun. now injection Hrun as <-.
Qed.

(** With [limit <= 0] a paginated read that returns reports
    [has_more] exactly when [limit] is 0, and with [limit = 0] its page
    is empty: an empty page that claims more. *)
Theorem nonpositive_limit_pages page limit :
  limit <= 0 ->
  (forall user_id db resp,
      outcome (get_user_conversations user_id page limit db) = inr resp ->
      pc_has_more resp = (limit =? 0)
      /\ (limit = 0 -> pc_conversations resp = []))
  /\ (forall conversation_id db resp,
      outcome (get_conversation_messages conversation_id page limit db) = inr resp ->
      pm_has_more resp = (limit =? 0)
      /\ (limit = 0 -> pm_messages resp = []))
  /\ (forall conversation_id before_timestamp db resp,
      outcome (get_messages_before_timestamp conversation_id before_timestamp
                                             page limit db) = inr resp ->
      pm_has_more resp = (limit =? 0)
      /\ (limit = 0 -> pm_messages resp = [])).
Proof.
  intros Hl. split; [|split]; intros until resp; intros Hrun.
  1: apply get_user_conversations_sliced in Hrun.
  2: apply get_conversation_messages_sliced in Hrun.
  3: apply get_messages_before_timestamp_sliced in Hrun.
  all: subst resp; simpl.
  all: destruct (Z.eqb_spec limit 0) as [->|Hne].
  all: rewrite ?Z.mul_0_r, ?Z.add_0_r, ?slice_empty_range.
  all: split; try reflexivity; try lia.
  all: apply Z.eqb_neq; unfold Py.len; lia.
Qed.

(** Page 0 of a paginated read that returns has no items, whatever
    [limit] is. *)
Theorem page_zero_is_empty limit :
  (forall user_id db resp,
      outcome (get_user_conversations user_id 0 limit db) = inr resp ->
      pc_conversations resp = [])
  /\ (forall conversation_id db resp,
      outcome (get_conversation_messages conversation_id 0 limit db) = inr resp ->
      pm_messages resp = [])
  /\ (forall conversation_id before_timestamp db resp,
      outcome (get_messages_before_timestamp conversation_id before_timestamp
                                             0 limit db) = inr resp ->
      pm_messages resp = []).
Proof.
  split; [|split]; intros until resp; intros Hrun.
  1: apply get_user_conversations_sliced in Hrun.
  2: apply get_conversation_messages_sliced in Hrun.
  3: apply get_messages_before_timestamp_sliced in Hrun.
  all: cbv zeta in Hrun.
  all: replace ((0 - 1) * limit + limit) with 0 in Hrun by lia.
  all: rewrite !slice_stop_zero in Hrun.
  all: now subst resp.
Qed.

(** For all integers [page] and [limit], the items of a paginated read
    that returns are an unbroken run of the rows of the query, in the
    order of the store: nothing is reordered, repeated or taken from
    elsewhere. *)
Theorem every_page_is_a_run_of_rows page limit :
  (forall user_id db resp,
      outcome (get_user_conversations user_id page limit db) = inr resp ->
      exists before run after,
        rows_of_user user_id db = before ++ run ++ after
        /\ pc_conversations resp = map conversation_of_row run)
  /\ (forall conversation_id db resp,
      outcome (get_conversation_messages conversation_id page limit db) = inr resp ->
      exists before run after,
        messages_of conversation_id db = before ++ run ++ after
        /\ pm_messages resp = map (message_of_row conversation_id) run)
  /\ (forall conversation_id before_timestamp db resp,
      outcome (get_messages_before_timestamp conversation_id before_timestamp
                                             page limit db) = inr resp ->
      exists before run after,
        messages_before conversation_id before_timestamp db = before ++ run ++ after
        /\ pm_messages resp = map (message_of_row conversation_id) run).
Proof.
  split; [|split]; intros until resp; intros Hrun.
  - apply get_user_conversations_sliced in Hrun. subst resp. simpl.
    destruct (slice_segment (rows_of_user user_id db)
                ((page - 1) * limit) ((page - 1) * limit + limit))
      as (before & after & Heq).
    now exists before, (Py.slice (rows_of_user user_id db)
                    ((page - 1) * limit) ((page - 1) * limit + limit)), after.
  - apply get_conversation_messages_sliced in Hrun. subst resp. simpl.
    set (n := Z.to_nat _).
    destruct (slice_segment (firstn n (messages_of conversation_id db))
                ((page - 1) * limit) ((page - 1) * limit + limit))
      as (before & after & Heq).
    apply firstn_segment in Heq. destruct Heq as (after' & Heq).
    now exists before, (Py.slice (firstn n (messages_of conversation_id db))
                    ((page - 1) * limit) ((page - 1) * limit + limit)), after'.
  - apply get_messages_before_timestamp_sliced in Hrun. subst resp. simpl.
    set (n := Z.to_nat _).
    destruct (slice_segment
                (firstn n (messages_before conversation_id before_timestamp db))
                ((page - 1) * limit) ((page - 1) * limit + limit))
      as (before & after & Heq).
    apply firstn_segment in Heq. destruct Heq as (after' & Heq).
    now exists before,
      (Py.slice (firstn n (messages_before conversation_id before_timestamp db))
                ((page - 1) * limit) ((page - 1) * limit + limit)), after'.
Qed.

End AnyPage.

(** * Further properties of send_message *)

Section SendMessagePartial.
Context `{Session}.
Import MessageController.

Ltac run_send c s r :=
  unfold send_message, writes_of, for_each, bind, execute, ret,
         outcome, executed, store_after; simpl;
  rewrite Z.eqb_refl;
  replace (if r =? s then r else s) with s
    by (destruct (Z.eqb_spec r s); congruence).

(** The writes up to the first one the driver refuses. *)
Lemma send_message_failed message_data message_id timestamp db e :
  let run := send_message message_data message_id timestamp db in
  outcome run = inl e ->
  exists done s rest message,
    writes_of message_data message_id timestamp = done ++ s :: rest
    /\ Forall (fun w => driver_raises w = None) done
    /\ driver_raises s = Some message
    /\ e = DriverError message
    /\ executed run = done ++ [s]
    /\ store_after run = apply_all done db.
Proof.
  destruct message_data as [c s r content]. cbv zeta. run_send c s r.
  set (w1 := InsertMessage _). set (w2 := InsertParticipant _).
  set (w3 := InsertParticipant _). set (w4 := InsertConversationByUser _).
  set (w5 := InsertConversationByUser _).
  destruct (driver_raises w1) as [m1|] eqn:E1; simpl.
  { intros He. injection He as <-.
    exists [], w1, [w2; w3; w4; w5], m1. repeat split; auto. }
  destruct (driver_raises w2) as [m2|] eqn:E2; simpl.
  { intros He. injection He as <-.
    exists [w1], w2, [w3; w4; w5], m2. repeat split; auto. }
  destruct (driver_raises w3) as [m3|] eqn:E3; simpl.
  { intros He. injection He as <-.
    exists [w1; w2], w3, [w4; w5], m3. repeat split; auto. }
  destruct (driver_raises w4) as [m4|] eqn:E4; simpl.
  { intros He. injection He as <-.
    exists [w1; w2; w3], w4, [w5], m4. repeat split; auto. }
  destruct (driver_raises w5) as [m5|] eqn:E5; simpl.
  { intros He. injection He as <-.
    exists [w1; w2; w3; w4], w5, [], m5. repeat split; auto. }
  discriminate.
Qed.

Lemma send_message_refused message_data message_id timestamp db done s rest message :
  writes_of message_data message_id timestamp = done ++ s :: rest ->
  Forall (fun w => driver_raises w = None) done ->
  driver_raises s = Some message ->
  send_message message_data message_id timestamp db
  = (apply_all done db, done ++ [s], inl (DriverError message)).
Proof.
  destruct message_data as [c sender r content].
  unfold writes_of. simpl. intros Hsplit Hdone Hs.
  destruct done as [|d1 [|d2 [|d3 [|d4 [|d5 done]]]]]; simpl in Hsplit;
    injection Hsplit; intros; subst;
    try (destruct done; discriminate);
    repeat match goal with
           | Hf : Forall _ (_ :: _) |- _ => inversion Hf; clear Hf; subst
           end;
    unfold send_message, for_each, bind, execute, ret; simpl;
    rewrite Z.eqb_refl;
    replace (if r =? sender then r else sender) with sender
      by (destruct (Z.eqb_spec r sender); congruence);
    repeat match goal with
           | Hr : driver_raises _ = _ |- _ => rewrite Hr
           end;
    reflexivity.
Qed.

(** Returning or raising, [send_message] leaves the store that a
    prefix of its five writes produces. *)
Lemma send_message_store message_data message_id timestamp db :
  exists done rest,
    writes_of message_data message_id timestamp = done ++ rest
    /\ store_after (send_message message_data message_id timestamp db)
       = apply_all done db.
Proof.
  destruct message_data as [c s r content]. run_send c s r.
  set (w1 := InsertMessage _). set (w2 := InsertParticipant _).
  set (w3 := InsertParticipant _). set (w4 := InsertConversationByUser _).
  set (w5 := InsertConversationByUser _).
  destruct (driver_raises w1); simpl.
  { now exists [], [w1; w2; w3; w4; w5]. }
  destruct (driver_raises w2); simpl.
  { now exists [w1], [w2; w3; w4; w5]. }
  destruct (driver_raises w3); simpl.
  { now exists [w1; w2], [w3; w4; w5]. }
  destruct (driver_raises w4); simpl.
  { now exists [w1; w2; w3], [w4; w5]. }
  destruct (driver_raises w5); simpl.
  { now exists [w1; w2; w3; w4], [w5]. }
  now exists [w1; w2; w3; w4; w5], [].
Qed.

End SendMessagePartial.

(** ** Failures of the methods, from their first line *)

Section MethodFailures.
Context `{Session} `{Client}.

Lemma method_run {A} (body : M A) db :
  (get_cassandra_session ;;; body) db
  = match session_raises with
    | Some e => (db, [], inl e)
    | None => body db
    end.
Proof.
  unfold bind, get_cassandra_session. destruct session_raises; [reflexivity|].
  now destruct (body db) as [[db' log] r].
Qed.

Lemma paged_failure_iff {B} (sr : option PyException) (dr : option string)
      db (s : Statement) (b : B) e :
  outcome match sr with
          | Some e0 => (db, @nil Statement, @inl PyException B e0)
          | None =>
              match dr with
              | Some message => (db, [s], inl (HTTPException 500 message))
              | None => (db, [s], inr b)
              end
          end = inl e
  <-> sr = Some e
      \/ (sr = None
          /\ exists message, dr = Some message /\ e = HTTPException 500 message).
Proof.
  destruct sr as [e0|]; cbn [outcome snd].
  - split.
    + intros He. injection He as <-. now left.
    + intros [He|[Hn _]]; [now injection He as <-|discriminate].
  - destruct dr as [message|]; cbn [outcome snd]; split.
    + intros He. injection He as <-. right. split; [reflexivity|].
      now exists message.
    + intros [He|(_ & message' & Hm & ->)];
        [discriminate|now injection Hm as <-].
    + discriminate.
    + intros [He|(_ & message' & Hm & _)]; discriminate.
Qed.

(** The exceptions that leave a read are these and no others.  What
    [get_cassandra_session] raises, before the [try], leaves as it is.
    Once the session is there, a paginated read raises exactly when the
    driver raises, and then with status 500 and the driver's message as
    detail; [get_conversation] raises for the same reason, or with
    status 500 around the text of its own 404 when the conversation has
    no participant row. *)
Theorem read_failures_are_session_error_or_500 db e :
  (forall user_id page limit,
      outcome (Method.get_user_conversations user_id page limit db) = inl e
      <-> session_raises = Some e
          \/ (session_raises = None
              /\ exists message,
                   driver_raises (SelectConversationsByUser user_id) = Some message
                   /\ e = HTTPException 500 message))
  /\ (forall conversation_id page limit,
      outcome (Method.get_conversation_messages conversation_id page limit db) = inl e
      <-> session_raises = Some e
          \/ (session_raises = None
              /\ exists message,
                   driver_raises (SelectMessages conversation_id
                                                 ((page - 1) * limit + limit))
                   = Some message
                   /\ e = HTTPException 500 message))
  /\ (forall conversation_id before_timestamp page limit,
      outcome (Method.get_messages_before_timestamp
                 conversation_id before_timestamp page limit db) = inl e
      <-> session_raises = Some e
          \/ (session_raises = None
              /\ exists message,
                   driver_raises (SelectMessagesBefore
                                    conversation_id before_timestamp
                                    ((page - 1) * limit + limit))
                   = Some message
                   /\ e = HTTPException 500 message))
  /\ (forall conversation_id,
      outcome (Method.get_conversation conversation_id db) = inl e
      <-> session_raises = Some e
          \/ (session_raises = None
              /\ exists message,
                   driver_raises (SelectParticipants conversation_id) = Some message
                   /\ e = HTTPException 500 message)
          \/ (session_raises = None
              /\ driver_raises (SelectParticipants conversation_id) = None
              /\ participants_of conversation_id db = []
              /\ e = HTTPException 500
                        (http_exception_str 404 "Conversation not found"))).
Proof.
  split; [|split; [|split]]; intros *.
  1: unfold Method.get_user_conversations;
     rewrite method_run, get_user_conversations_run.
  2: unfold Method.get_conversation_messages;
     rewrite method_run, get_conversation_messages_run.
  3: unfold Method.get_messages_before_timestamp;
     rewrite method_run, get_messages_before_timestamp_run.
  1-3: cbv zeta; apply paged_failure_iff.
  unfold Method.get_conversation. rewrite method_run, get_conversation_run.
  cbv zeta. destruct session_raises as [e0|]; cbn [outcome snd].
  { split.
    - intros He. injection He as <-. now left.
    - intros [He|[[Hn _]|[Hn _]]]; [now injection He as <-|discriminate ..]. }
  destruct (driver_raises _) as [message|]; cbn [outcome snd].
  { split.
    - intros He. injection He as <-. right. left. split; [reflexivity|].
      now exists message.
    - intros [He|[(_ & message' & Hm & ->)|(_ & Hm & _)]];
        [discriminate|now injection Hm as <-|discriminate]. }
  destruct (participants_of conversation_id db) as [|row rows];
    cbn [outcome snd]; split.
  - intros He. injection He as <-. right. right. now repeat split.
  - intros [He|[(_ & message' & Hm & _)|(_ & _ & _ & ->)]];
      [discriminate|discriminate|reflexivity].
  - discriminate.
  - intros [He|[(_ & message' & Hm & _)|(_ & _ & Hp & _)]]; discriminate.
Qed.

(** [send_message] has no [try].  What [get_cassandra_session] raises
    leaves as it is, before any write.  Once the session is there, when
    the driver refuses one of the five writes after accepting those
    before it, the caller receives the driver's exception as it is (not
    an HTTP error), the writes after the refused one are not attempted,
    and the writes before it stay in the store.  A [send_message] that
    raises has failed in one of these two ways. *)
Theorem send_message_failure_is_partial message_data message_id timestamp db :
  let run := Method.send_message message_data message_id timestamp db in
  (forall e,
      session_raises = Some e ->
      outcome run = inl e /\ executed run = [] /\ store_after run = db)
  /\ (forall done s rest message,
      session_raises = None ->
      writes_of message_data message_id timestamp = done ++ s :: rest ->
      Forall (fun w => driver_raises w = None) done ->
      driver_raises s = Some message ->
      outcome run = inl (DriverError message)
      /\ executed run = done ++ [s]
      /\ store_after run = apply_all done db)
  /\ (forall e,
      outcome run = inl e ->
      session_raises = Some e
      \/ (session_raises = None
          /\ exists done s rest message,
               writes_of message_data message_id timestamp = done ++ s :: rest
               /\ Forall (fun w => driver_raises w = None) done
               /\ driver_raises s = Some message
               /\ e = DriverError message
               /\ executed run = done ++ [s]
               /\ store_after run = apply_all done db)).
Proof.
  cbv zeta. unfold Method.send_message. rewrite method_run.
  split; [|split].
  - intros e ->. now repeat split.
  - intros done s rest message -> Hsplit Hdone Hs.
    rewrite (@send_message_refused _ message_data message_id timestamp db
               done s rest message Hsplit Hdone Hs).
    now repeat split.
  - intros e. destruct session_raises as [e0|]; cbn [outcome snd].
    + intros He. injection He as <-. now left.
    + intros He. right. split; [reflexivity|].
      now apply send_message_failed.
Qed.

End MethodFailures.

Section Frame.

Lemma cbu_key_refl row : Table.cbu_key row row = true.
Proof. unfold Table.cbu_key. now rewrite !Z.eqb_refl. Qed.

Lemma cp_key_refl row : Table.cp_key row row = true.
Proof. unfold Table.cp_key. now rewrite !Z.eqb_refl. Qed.

Lemma msg_key_refl row : Table.msg_key row row = true.
Proof. unfold Table.msg_key. now rewrite Z.eqb_refl, N.eqb_refl. Qed.

Lemma answer_other_conversation w db c c' :
  written_conversation w = Some c -> c <> c' ->
  messages_of c' (fst (answer w db)) = messages_of c' db
  /\ (forall before,
         messages_before c' before (fst (answer w db)) = messages_before c' before db)
  /\ participants_of c' (fst (answer w db)) = participants_of c' db.
Proof.
  intros Hw Hne.
  destruct w as [| | | |row|row|row]; simpl in Hw; try discriminate;
    injection Hw as <-; simpl.
  - unfold messages_of, messages_before. simpl. split; [|split]; trivial.
    + apply filter_upsert_other; [apply msg_key_refl|].
      intros y Hy. apply Z.eqb_eq in Hy. unfold Table.msg_key.
      destruct (Z.eqb_spec (msg_conversation_id row) (msg_conversation_id y));
        [congruence|reflexivity].
    + intros before. apply filter_upsert_other; [apply msg_key_refl|].
      intros y Hy. apply andb_prop in Hy. destruct Hy as [Hy _].
      apply Z.eqb_eq in Hy. unfold Table.msg_key.
      destruct (Z.eqb_spec (msg_conversation_id row) (msg_conversation_id y));
        [congruence|reflexivity].
  - unfold participants_of. simpl. split; [|split]; trivial.
    apply filter_upsert_other; [apply cp_key_refl|].
    intros y Hy. apply Z.eqb_eq in Hy. unfold Table.cp_key.
    destruct (Z.eqb_spec (cp_conversation_id row) (cp_conversation_id y));
      [congruence|reflexivity].
  - now split.
Qed.

Lemma answer_other_user w db u :
  (forall u', written_user w = Some u' -> u' <> u) ->
  rows_of_user u (fst (answer w db)) = rows_of_user u db.
Proof.
  intros Hw.
  destruct w as [| | | |row|row|row]; simpl; trivial.
  unfold rows_of_user. simpl.
  apply filter_upsert_other; [apply cbu_key_refl|].
  intros y Hy. apply Z.eqb_eq in Hy. unfold Table.cbu_key.
  specialize (Hw _ eq_refl).
  destruct (Z.eqb_spec (cbu_user_id row) (cbu_user_id y));
    [congruence|reflexivity].
Qed.

Lemma apply_all_other_conversation ws db c c' :
  Forall (fun w => written_conversation w = Some c) ws -> c <> c' ->
  messages_of c' (apply_all ws db) = messages_of c' db
  /\ (forall before,
         messages_before c' before (apply_all ws db) = messages_before c' before db)
  /\ participants_of c' (apply_all ws db) = participants_of c' db.
Proof.
  intros Hws Hne. revert db.
  induction Hws as [|w ws Hw _ IH]; intros db; [now repeat split|].
  destruct (IH (fst (answer w db))) as (IH1 & IH2 & IH3).
  destruct (answer_other_conversation w db Hw Hne) as (H1 & H2 & H3).
  unfold apply_all in *. simpl.
  split; [|split]; try intros before; congruence.
Qed.

Lemma apply_all_other_user ws db u :
  Forall (fun w => forall u', written_user w = Some u' -> u' <> u) ws ->
  rows_of_user u (apply_all ws db) = rows_of_user u db.
Proof.
  intros Hws. revert db.
  induction Hws as [|w ws Hw _ IH]; intros db; trivial.
  unfold apply_all in *. simpl. rewrite IH. now apply answer_other_user.
Qed.

End Frame.

Section SendMessageFrame.
Context `{Session}.
Import ConversationController MessageController.

(** Returning or raising, [send_message] changes nothing that a reader
    of another conversation, or of the listing of a user who is neither
    the sender nor the receiver, can see: each read gives the outcome it
    gave before the send. *)
Theorem send_message_leaves_other_readers message_data message_id timestamp db :
  let db' := store_after (send_message message_data message_id timestamp db) in
  (forall conversation_id,
      conversation_id <> mc_conversation_id message_data ->
      (forall page limit,
          outcome (get_conversation_messages conversation_id page limit db')
          = outcome (get_conversation_messages conversation_id page limit db))
      /\ (forall before_timestamp page limit,
          outcome (get_messages_before_timestamp conversation_id before_timestamp
                                                 page limit db')
          = outcome (get_messages_before_timestamp conversation_id before_timestamp
                                                   page limit db))
      /\ outcome (get_conversation conversation_id db')
         = outcome (get_conversation conversation_id db))
  /\ (forall user_id page limit,
      user_id <> mc_sender_id message_data ->
      user_id <> mc_receiver_id message_data ->
      outcome (get_user_conversations user_id page limit db')
      = outcome (get_user_conversations user_id page limit db)).
Proof.
  cbv zeta.
  destruct (send_message_store message_data message_id timestamp db)
    as (done & rest & Hws & ->).
  assert (Hconv : Forall (fun w => written_conversation w
                                   = Some (mc_conversation_id message_data)) done).
  { assert (Hall : Forall (fun w => written_conversation w
                                    = Some (mc_conversation_id message_data))
                          (done ++ rest)).
    { rewrite <- Hws. unfold writes_of. repeat constructor. }
    now apply Forall_app in Hall. }
  split.
  - intros c' Hne.
    destruct (apply_all_other_conversation db (c:=mc_conversation_id message_data)
                (c':=c') Hconv) as (H1 & H2 & H3); [congruence|].
    split; [|split]; intros.
    + rewrite !get_conversation_messages_run. cbv zeta. rewrite H1.
      now destruct (driver_raises _).
    + rewrite !get_messages_before_timestamp_run. cbv zeta. rewrite H2.
      now destruct (driver_raises _).
    + rewrite !get_conversation_run. cbv zeta. rewrite H3.
      destruct (driver_raises _); trivial.
      now destruct (participants_of c' db).
  - intros u page limit Hs Hr.
    rewrite !get_user_conversations_run. cbv zeta.
    rewrite apply_all_other_user; [now destruct (driver_raises _)|].
    assert (Hall : Forall (fun w => forall u', written_user w = Some u' -> u' <> u)
                          (done ++ rest)).
    { rewrite <- Hws. unfold writes_of.
      repeat constructor; simpl; intros u' Hu'; try discriminate;
        injection Hu' as <-; congruence. }
    now apply Forall_app in Hall.
Qed.

End SendMessageFrame.

(** ** Reading back what was sent *)

Section UpsertMembership.
Variable Row : Type.
Variable same_key : Row -> Row -> bool.
Hypothesis same_key_refl : forall r, same_key r r = true.

Lemma upsert_new_key (r : Row) (t : list Row) :
  (forall y, In y t -> same_key r y = false) ->
  Table.upsert same_key r t = t ++ [r].
Proof.
  induction t as [|x t IH]; intros Hnew; simpl; trivial.
  rewrite (Hnew x) by now left.
  rewrite IH; trivial. intros y Hy. apply Hnew. now right.
Qed.

Lemma In_upsert (r : Row) (t : list Row) : In r (Table.upsert same_key r t).
Proof.
  induction t as [|x t IH]; simpl; [now left|].
  destruct (same_key r x); [now left|now right].
Qed.

Lemma In_upsert_inv (r x : Row) (t : list Row) :
  In x (Table.upsert same_key r t) -> x = r \/ In x t.
Proof.
  induction t as [|y t IH]; simpl.
  - intros [<-|[]]. now left.
  - destruct (same_key r y); simpl.
    + intros [<-|Hx]; [now left|]. apply filter_In in Hx. tauto.
    + intros [<-|Hx]; [tauto|]. apply IH in Hx. tauto.
Qed.

End UpsertMembership.

Lemma filter_map_commute {A B} (f : A -> B) (p : B -> bool) (l : list A) :
  filter p (map f l) = map f (filter (fun x => p (f x)) l).
Proof.
  induction l as [|x l IH]; simpl; trivial.
  destruct (p (f x)); simpl; now rewrite IH.
Qed.

Lemma filter_filter {A} (p q : A -> bool) (l : list A) :
  filter p (filter q l) = filter (fun x => q x && p x) l.
Proof.
  induction l as [|x l IH]; simpl; trivial.
  destruct (q x); simpl; [destruct (p x)|]; now rewrite IH.
Qed.

Lemma fan_out_rows (t : list ConversationByUserRow) s r c ts :
  let table :=
    Table.upsert Table.cbu_key (mkConversationByUserRow r c s ts)
      (Table.upsert Table.cbu_key (mkConversationByUserRow s c r ts) t) in
  filter (keyed_by s c) table = [mkConversationByUserRow s c r ts]
  /\ filter (keyed_by r c) table = [mkConversationByUserRow r c s ts].
Proof.
  cbv zeta.
  assert (Hr : filter (keyed_by r c)
                 (Table.upsert Table.cbu_key (mkConversationByUserRow r c s ts)
                    (Table.upsert Table.cbu_key (mkConversationByUserRow s c r ts) t))
               = [mkConversationByUserRow r c s ts]).
  { apply filter_upsert_key; [apply cbu_key_refl|reflexivity]. }
  split; [|exact Hr].
  destruct (Z.eqb_spec s r) as [->|Hne]; [exact Hr|].
  rewrite filter_upsert_other.
  - apply filter_upsert_key; [apply cbu_key_refl|reflexivity].
  - apply cbu_key_refl.
  - intros y Hy. unfold keyed_by in Hy. apply andb_prop in Hy.
    destruct Hy as [Hu _]. apply Z.eqb_eq in Hu.
    unfold Table.cbu_key. simpl.
    destruct (Z.eqb_spec r (cbu_user_id y)); [congruence|reflexivity].
Qed.

Section ReadBack.
Context `{Session}.
Import ConversationController MessageController.

Lemma send_message_store_after message_data message_id timestamp db resp :
  outcome (send_message message_data message_id timestamp db) = inr resp ->
  store_after (send_message message_data message_id timestamp db)
  = apply_all (writes_of message_data message_id timestamp) db
  /\ resp = mkMessageResponse message_id (mc_conversation_id message_data)
                              (mc_sender_id message_data)
                              (mc_content message_data) timestamp.
Proof.
  intros Hrun. pose proof (send_message_run _ _ _ _ Hrun) as Heq.
  rewrite Heq in Hrun |- *. simpl in Hrun. injection Hrun as <-.
  now split.
Qed.

(** A message sent under an identifier that the conversation does not
    hold yet is read back: when the send returns, page 1 with a limit
    above the number of earlier messages holds the returned message
    together with the earlier ones and nothing else, and [has_more] is
    set exactly when the limit is the new number of messages. *)
Theorem sent_message_is_read_back
        message_data message_id timestamp db resp limit page_resp :
  let conversation_id := mc_conversation_id message_data in
  let db' := store_after (send_message message_data message_id timestamp db) in
  outcome (send_message message_data message_id timestamp db) = inr resp ->
  (forall row, In row (messages_of conversation_id db) ->
               msg_message_id row <> message_id) ->
  Py.len (messages_of conversation_id db) < limit ->
  outcome (get_conversation_messages conversation_id 1 limit db') = inr page_resp ->
  Permutation (pm_messages page_resp)
              (resp :: map (message_of_row conversation_id)
                           (messages_of conversation_id db))
  /\ (pm_has_more page_resp = true
      <-> limit = Py.len (messages_of conversation_id db) + 1).
Proof.
  cbv zeta. intros Hsend Hfresh Hlimit Hpage.
  destruct (send_message_store_after _ _ _ _ Hsend) as [Hstore ->].
  rewrite Hstore in Hpage. clear Hstore Hsend.
  apply get_conversation_messages_page in Hpage; [|lia|unfold Py.len in *; lia].
  destruct message_data as [c s r content].
  cbn [mc_conversation_id mc_sender_id mc_receiver_id mc_content] in *.
  set (row := mkMessageRow c message_id s content timestamp) in *.
  assert (Hrows : messages_of c (apply_all (writes_of (mkMessageCreate c s r content)
                                              message_id timestamp) db)
                  = messages_of c db ++ [row]).
  { unfold messages_of, apply_all. simpl. fold row.
    rewrite upsert_new_key.
    - rewrite filter_app. simpl. now rewrite Z.eqb_refl.
    - intros y Hy. unfold Table.msg_key. simpl.
      destruct (Z.eqb_spec c (msg_conversation_id y)) as [Hc|Hc]; trivial.
      simpl. apply N.eqb_neq. intros Hid.
      apply (Hfresh y); [|congruence].
      unfold messages_of. apply filter_In. split; trivial.
      now apply Z.eqb_eq. }
  rewrite Hrows in Hpage. subst page_resp. simpl.
  assert (Hwin : Spec.page_window (messages_of c db ++ [row]) 1 limit
                 = messages_of c db ++ [row]).
  { unfold Spec.page_window. simpl.
    apply firstn_all2. rewrite length_app. simpl. unfold Py.len in Hlimit. lia. }
  rewrite Hwin, map_app. simpl. split.
  - apply Permutation_sym, Permutation_cons_append.
  - rewrite Z.eqb_eq. unfold Py.len. rewrite length_app. simpl. lia.
Qed.

(** After a send that returns, [get_conversation] on that conversation
    finds a participant (unless the driver refuses the lookup): it
    returns the conversation with the sender, the receiver or a
    participant the conversation had before. *)
Theorem conversation_is_found_after_send message_data message_id timestamp db resp :
  let conversation_id := mc_conversation_id message_data in
  let db' := store_after (send_message message_data message_id timestamp db) in
  outcome (send_message message_data message_id timestamp db) = inr resp ->
  driver_raises (SelectParticipants conversation_id) = None ->
  exists participant_id,
    outcome (get_conversation conversation_id db')
    = inr (mkConversationResponse conversation_id participant_id None)
    /\ (participant_id = mc_sender_id message_data
        \/ participant_id = mc_receiver_id message_data
        \/ In participant_id
              (map cp_participant_id (participants_of conversation_id db))).
Proof.
  cbv zeta. intros Hsend Hok.
  destruct (send_message_store_after _ _ _ _ Hsend) as [Hstore _].
  rewrite Hstore. clear Hstore Hsend resp.
  rewrite get_conversation_run. cbv zeta. rewrite Hok.
  destruct message_data as [c s r content]. simpl in *.
  unfold participants_of at 1. unfold apply_all. simpl.
  set (table := Table.upsert Table.cp_key (mkParticipantRow c r)
                  (Table.upsert Table.cp_key (mkParticipantRow c s)
                                (conversation_participants db))).
  destruct (filter _ table) as [|row rows] eqn:Hrows.
  - exfalso.
    assert (Hin : In (mkParticipantRow c r)
                     (filter (fun x => cp_conversation_id x =? c) table)).
    { apply filter_In. split; [|simpl; apply Z.eqb_refl].
      apply In_upsert. }
    now rewrite Hrows in Hin.
  - exists (cp_participant_id row). split; [reflexivity|].
    assert (Hin : In row (filter (fun x => cp_conversation_id x =? c) table))
      by (rewrite Hrows; now left).
    apply filter_In in Hin. destruct Hin as [Hin Hc].
    apply In_upsert_inv in Hin. destruct Hin as [->|Hin]; [now right; left|].
    apply In_upsert_inv in Hin. destruct Hin as [->|Hin]; [now left|].
    right. right. apply in_map. unfold participants_of.
    apply filter_In. now split.
Qed.

(** After a send that returns, the listing of the sender shows the
    conversation exactly once, with the receiver as participant and the
    timestamp of the message, and the listing of the receiver shows it
    once with the sender: on page 1 with a limit that covers the
    listing. *)
Theorem conversation_is_listed_after_send
        message_data message_id timestamp db resp limit :
  let conversation_id := mc_conversation_id message_data in
  let sender_id := mc_sender_id message_data in
  let receiver_id := mc_receiver_id message_data in
  let db' := store_after (send_message message_data message_id timestamp db) in
  outcome (send_message message_data message_id timestamp db) = inr resp ->
  0 < limit ->
  (forall listing,
      Py.len (rows_of_user sender_id db') <= limit ->
      outcome (get_user_conversations sender_id 1 limit db') = inr listing ->
      filter (fun c => cr_conversation_id c =? conversation_id)
             (pc_conversations listing)
      = [mkConversationResponse conversation_id receiver_id (Some timestamp)])
  /\ (forall listing,
      Py.len (rows_of_user receiver_id db') <= limit ->
      outcome (get_user_conversations receiver_id 1 limit db') = inr listing ->
      filter (fun c => cr_conversation_id c =? conversation_id)
             (pc_conversations listing)
      = [mkConversationResponse conversation_id sender_id (Some timestamp)]).
Proof.
  cbv zeta. intros Hsend Hlimit.
  destruct (send_message_store_after _ _ _ _ Hsend) as [Hstore _].
  rewrite Hstore. clear Hstore Hsend resp.
  destruct message_data as [c s r content]. simpl.
  destruct (fan_out_rows (conversations_by_user db) s r c timestamp)
    as [Hs Hr].
  split; intros listing Hlen Hrun.
  all: apply get_user_conversations_page in Hrun; try lia.
  all: subst listing; simpl.
  all: unfold Spec.page_window; simpl.
  all: rewrite firstn_all2 by (unfold Py.len in Hlen; lia).
  all: rewrite filter_map_commute; unfold rows_of_user; rewrite filter_filter.
  all: unfold apply_all; simpl.
  - erewrite filter_ext; [rewrite Hs; reflexivity|].
    intros y. unfold keyed_by. simpl.
    now rewrite (Z.eqb_sym s), (Z.eqb_sym c).
  - erewrite filter_ext; [rewrite Hr; reflexivity|].
    intros y. unfold keyed_by. simpl.
    now rewrite (Z.eqb_sym r), (Z.eqb_sym c).
Qed.

End ReadBack.

(** * Properties of the test data generator *)

Section SeedRuns.
Context `{Seed.Host}.
Import Seed.

Lemma statements_app (ev1 ev2 : list Event) :
  statements (ev1 ++ ev2) = statements ev1 ++ statements ev2.
Proof. apply flat_map_app. Qed.

Lemma bind_inr {A B} (m : S A) (k : A -> S B) c c1 ev1 a :
  m c = (c1, ev1, inr a) ->
  events (bind m k c) = ev1 ++ events (k a c1)
  /\ result (bind m k c) = result (k a c1).
Proof.
  intros Hm. unfold bind, events, result. rewrite Hm.
  now destruct (k a c1) as [[c2 ev2] r].
Qed.

Lemma bind_inl {A B} (m : S A) (k : A -> S B) c c1 ev1 e :
  m c = (c1, ev1, inl e) ->
  events (bind m k c) = ev1 /\ result (bind m k c) = inl e.
Proof.
  intros Hm. unfold bind, events, result. now rewrite Hm.
Qed.

Lemma randint_run a b c :
  a <= b ->
  exists c' v, randint a b c = (c', [], inr v) /\ a <= v <= b.
Proof.
  intros Hab. unfold randint, bind, draw, ret.
  eexists _, _. split; [reflexivity|].
  pose proof (Z.mod_pos_bound (Z.of_nat (entropy (random_calls c))) (b - a + 1)).
  lia.
Qed.

Lemma sample2_run (users : list UUID) c :
  (2 <= length users)%nat ->
  exists c' user1_id user2_id (i j : nat),
    sample2 users c = (c', [], inr (user1_id, user2_id))
    /\ i <> j
    /\ nth_error users i = Some user1_id
    /\ nth_error users j = Some user2_id.
Proof.
  intros Hlen. destruct users as [|a [|b rest]]; [simpl in Hlen; lia ..|].
  unfold sample2. set (population := a :: b :: rest) in *.
  set (n := length population) in *.
  unfold bind, draw, ret. cbn [random_calls uuid_calls clock_calls app].
  set (i := (entropy (random_calls c) mod n)%nat).
  set (j0 := (entropy (Datatypes.S (random_calls c)) mod (n - 1))%nat).
  assert (Hi : (i < n)%nat) by (apply Nat.mod_upper_bound; lia).
  assert (Hj0 : (j0 < n - 1)%nat) by (apply Nat.mod_upper_bound; lia).
  exists (mkCursors (Datatypes.S (Datatypes.S (random_calls c)))
                    (uuid_calls c) (clock_calls c)),
         (nth i population a),
         (nth (if (j0 =? i)%nat then (n - 1)%nat else j0) population a),
         i, (if (j0 =? i)%nat then (n - 1)%nat else j0).
  split; [reflexivity|]. split; [|split].
  - destruct (Nat.eqb_spec j0 i); lia.
  - apply nth_error_nth'. exact Hi.
  - apply nth_error_nth'. fold n. destruct (Nat.eqb_spec j0 i); lia.
Qed.


Lemma create_message_shape conversation_id user1_id user2_id c :
  exists stmt,
    message_for conversation_id user1_id user2_id stmt
    /\ statements (events (create_message conversation_id user1_id user2_id c))
       = [stmt]
    /\ forallb is_log_or_statement
               (events (create_message conversation_id user1_id user2_id c)) = true.
Proof.
  unfold create_message, choice2.
  unfold bind, draw, now, uuid4, randint, bind, draw, ret, execute,
         logger_info, emit, events.
  cbn [random_calls uuid_calls clock_calls app fst snd].
  set (sender := if (_ =? 0)%nat then user1_id else user2_id).
  set (raw := Z.of_nat _).
  eexists (InsertSeedMessage _ conversation_id sender _ _).
  split.
  - cbn [message_for]. split; [reflexivity|]. split.
    + subst sender. destruct (_ =? 0)%nat; auto.
    + eexists _, (1 + raw mod (60 - 1 + 1)). split; [|reflexivity].
      pose proof (Z.mod_pos_bound raw (60 - 1 + 1)). lia.
  - destruct (seed_raises _); split; reflexivity.
Qed.

(** A loop whose body hands over one block of statements per round. *)
Lemma repeat_n_blocks (Q Q' : list SeedStatement -> Prop) n (body : S unit) c :
  (forall c0,
      Q (statements (events (body c0)))
      /\ (forall u, result (body c0) = inr u -> Q' (statements (events (body c0))))
      /\ forallb is_log_or_statement (events (body c0)) = true) ->
  exists blocks,
    statements (events (repeat_n n body c)) = concat blocks
    /\ Forall Q blocks
    /\ (length blocks <= n)%nat
    /\ (forall u, result (repeat_n n body c) = inr u ->
                  length blocks = n /\ Forall Q' blocks)
    /\ forallb is_log_or_statement (events (repeat_n n body c)) = true.
Proof.
  intros Hbody. revert c. induction n as [|n IH]; intros c.
  - exists []. cbn. repeat split; auto.
  - cbn [repeat_n]. destruct (Hbody c) as (HQ & HQ' & Hev).
    destruct (body c) as [[c1 ev1] [e|[]]] eqn:Hrun;
      unfold events, result in HQ, HQ', Hev; cbn [fst snd] in HQ, HQ', Hev.
    + destruct (@bind_inl _ _ body (fun _ => repeat_n n body) c c1 ev1 e Hrun)
        as [-> ->].
      exists [statements ev1]. cbn [concat length]. rewrite app_nil_r.
      split; [reflexivity|]. split; [now constructor|].
      split; [lia|]. split; [discriminate|assumption].
    + destruct (@bind_inr _ _ body (fun _ => repeat_n n body) c c1 ev1 tt Hrun)
        as [-> ->].
      destruct (IH c1) as (blocks & Hst & HF & Hlen & Hok & Hevs).
      exists (statements ev1 :: blocks). cbn [concat length].
      split; [now rewrite statements_app, Hst|].
      split; [now constructor|]. split; [lia|]. split.
      * intros v Hv. destruct (Hok v Hv) as [Hn HF']. split; [lia|].
        constructor; [now apply (HQ' tt)|assumption].
      * now rewrite forallb_app, Hev, Hevs.
Qed.

Lemma concat_singletons {A} (P : A -> Prop) (blocks : list (list A)) :
  Forall (fun b => exists x, b = [x] /\ P x) blocks ->
  length (concat blocks) = length blocks /\ Forall P (concat blocks).
Proof.
  induction 1 as [|b blocks (x & -> & Hx) _ [IHlen IHP]]; cbn; auto.
Qed.


Lemma create_conversation_shape users c :
  (2 <= length users)%nat ->
  conversation_block users (statements (events (create_conversation users c)))
  /\ (forall u, result (create_conversation users c) = inr u ->
                (2 <= length (statements (events (create_conversation users c))))%nat)
  /\ forallb is_log_or_statement (events (create_conversation users c)) = true.
Proof.
  intros Hlen.
  destruct (sample2_run users c Hlen)
    as (c1 & user1_id & user2_id & i & j & Hs & Hij & Hi & Hj).
  unfold create_conversation.
  match goal with
  | |- context [bind (sample2 users) ?k c] =>
      destruct (@bind_inr _ _ (sample2 users) k c c1 [] (user1_id, user2_id) Hs)
        as [-> ->]
  end.
  cbv beta iota. cbn [app].
  unfold bind, uuid4, now, randint, bind, draw, ret, execute, logger_info, emit,
         events, result.
  cbn [random_calls uuid_calls clock_calls app fst snd].
  set (conversation_id := uuid_source (uuid_calls c1)).
  set (days := 1 + Z.of_nat (entropy (random_calls c1)) mod (30 - 1 + 1)).
  assert (Hdays : 1 <= days <= 30).
  { subst days.
    pose proof (Z.mod_pos_bound (Z.of_nat (entropy (random_calls c1))) (30 - 1 + 1)).
    lia. }
  set (stmt := InsertConversation conversation_id user1_id user2_id _).
  assert (Hblock : forall messages,
             (length messages <= 50)%nat ->
             Forall (message_for conversation_id user1_id user2_id) messages ->
             conversation_block users (stmt :: messages)).
  { intros messages Hn HF.
    exists conversation_id, user1_id, user2_id,
           (clock (clock_calls c1) - timedelta_days days), messages, i, j.
    repeat split; trivial. now exists (clock_calls c1), days. }
  destruct (seed_raises stmt); cbn [fst snd].
  { cbn. split; [apply Hblock; [cbn; lia|constructor]|].
    split; [discriminate|reflexivity]. }
  match goal with
  | |- context [repeat_n ?n ?body ?c'] =>
      destruct (@repeat_n_blocks
                  (fun block =>
                     exists s, block = [s]
                               /\ message_for conversation_id user1_id user2_id s)
                  (fun _ => True) n body c')
        as (blocks & Hst & HF & Hn & Hok & Hevs);
      [|assert (Hnum : (1 <= n <= 50)%nat);
        [|destruct (repeat_n n body c') as [[c2 ev2] r]]]
  end.
  - intros c0.
    destruct (create_message_shape conversation_id user1_id user2_id c0)
      as (s & Hs1 & Hs2 & Hs3).
    split; [now exists s|]. split; [trivial|assumption].
  - unfold MAX_MESSAGES_PER_CONVERSATION. cbn [random_calls].
    pose proof (Z.mod_pos_bound
                  (Z.of_nat (entropy (Datatypes.S (random_calls c1)))) (50 - 1 + 1)).
    lia.
  - unfold events, result in *. cbn [fst snd] in *. cbn [statements flat_map app forallb is_log_or_statement andb].
    fold (statements ev2). rewrite Hst, Hevs.
    destruct (@concat_singletons _ (message_for conversation_id user1_id user2_id)
                blocks HF) as [Hlen' HP].
    split; [apply Hblock; [lia|assumption]|].
    split; [|reflexivity].
    intros u Hu. destruct (Hok u Hu) as [Hfull _]. cbn [length]. lia.
Qed.


Lemma create_users_shape ids acc c :
  exists new,
    statements (events (for_fold ids acc create_user c))
    = map (fun p => InsertUser (snd p) ("User " ++ str_int (fst p)))
          (combine ids new)
    /\ (length new <= length ids)%nat
    /\ (forall users,
          result (for_fold ids acc create_user c) = inr users ->
          users = acc ++ new /\ length new = length ids)
    /\ forallb is_log_or_statement (events (for_fold ids acc create_user c)) = true.
Proof.
  revert acc c. induction ids as [|user_id ids IH]; intros acc c.
  - exists []. cbn. split; [reflexivity|]. split; [lia|]. split; [|reflexivity].
    intros users Hu. injection Hu as <-. now rewrite app_nil_r.
  - cbn [for_fold].
    set (user_uuid := uuid_source (uuid_calls c)).
    set (stmt := InsertUser user_uuid ("User " ++ str_int user_id)).
    destruct (seed_raises stmt) as [message|] eqn:Hraise.
    + assert (Hrun : create_user user_id acc c
                     = (mkCursors (random_calls c) (Datatypes.S (uuid_calls c))
                                  (clock_calls c),
                        [Exec stmt], inl message)).
      { unfold create_user, bind, uuid4, execute. cbn [fst snd app].
        fold user_uuid. fold stmt. now rewrite Hraise. }
      match goal with
      | |- context [bind _ ?k c] =>
          destruct (@bind_inl _ _ (create_user user_id acc) k c _ _ _ Hrun)
            as [-> ->]
      end.
      exists [user_uuid]. cbn.
      split; [now destruct ids|]. split; [lia|]. split; [discriminate|reflexivity].
    + assert (Hrun : create_user user_id acc c
                     = (mkCursors (random_calls c) (Datatypes.S (uuid_calls c))
                                  (clock_calls c),
                        [Exec stmt;
                         LogInfo ("Created user: " ++ ("User " ++ str_int user_id)
                                  ++ " (ID: " ++ str_uuid user_uuid ++ ")")],
                        inr (acc ++ [user_uuid]))).
      { unfold create_user, bind, uuid4, execute, logger_info, emit, ret.
        cbn [fst snd app]. fold user_uuid. fold stmt. now rewrite Hraise. }
      match goal with
      | |- context [bind _ ?k c] =>
          destruct (@bind_inr _ _ (create_user user_id acc) k c _ _ _ Hrun)
            as [-> ->]
      end.
      destruct (IH (acc ++ [user_uuid])
                   (mkCursors (random_calls c) (Datatypes.S (uuid_calls c))
                              (clock_calls c)))
        as (new & Hst & Hlen & Hok & Hev).
      exists (user_uuid :: new).
      rewrite statements_app, Hst, forallb_app, Hev. cbn.
      split; [reflexivity|]. split; [lia|]. split; [|reflexivity].
      intros users Hu. destruct (Hok users Hu) as [-> ->].
      now rewrite <- app_assoc.
Qed.


Ltac step_log :=
  match goal with
  | |- context [bind (logger_info ?t) ?k ?c] =>
      let He := fresh in
      let Hr := fresh in
      destruct (@bind_inr _ _ (logger_info t) k c c [LogInfo t] tt eq_refl)
        as [He Hr];
      rewrite ?He, ?Hr; clear He Hr
  end.

Lemma generate_test_data_shape c :
  exists users blocks,
    statements (events (generate_test_data c))
    = user_statements users ++ concat blocks
    /\ (length users <= 10)%nat
    /\ (blocks <> [] -> length users = 10%nat)
    /\ (length blocks <= 15)%nat
    /\ Forall (conversation_block users) blocks
    /\ (forall u, result (generate_test_data c) = inr u ->
                  length users = 10%nat
                  /\ length blocks = 15%nat
                  /\ Forall (fun block => (2 <= length block)%nat) blocks)
    /\ forallb is_log_or_statement (events (generate_test_data c)) = true.
Proof.
  unfold generate_test_data. do 2 step_log.
  destruct (create_users_shape user_numbers [] c)
    as (new & Hst & Hlen & Hok & Hev).
  change (length user_numbers) with 10%nat in *.
  destruct (for_fold user_numbers [] create_user c) as [[c1 ev1] [e|users]] eqn:Hff;
    unfold events, result in Hst, Hok, Hev; cbn [fst snd] in Hst, Hok, Hev.
  - match goal with
    | |- context [bind _ ?k c] =>
        destruct (@bind_inl _ _ (for_fold user_numbers [] create_user) k c _ _ _ Hff)
          as [-> ->]
    end.
    exists new, []. cbn [app concat length statements flat_map forallb
                         is_log_or_statement andb].
    fold (statements ev1). rewrite Hst, Hev, app_nil_r.
    split; [reflexivity|]. split; [assumption|]. split; [congruence|].
    split; [lia|]. split; [constructor|]. split; [discriminate|reflexivity].
  - match goal with
    | |- context [bind _ ?k c] =>
        destruct (@bind_inr _ _ (for_fold user_numbers [] create_user) k c _ _ _ Hff)
          as [-> ->]
    end.
    destruct (Hok users eq_refl) as [Husers Hfull]. cbn [app] in Husers. subst new.
    destruct (@repeat_n_blocks (conversation_block users)
                (fun block => (2 <= length block)%nat)
                NUM_CONVERSATIONS (create_conversation users) c1)
      as (blocks & Hbl & HF & Hn & Hdone & Hevs).
    { intros c0. apply create_conversation_shape. lia. }
    exists users, blocks.
    destruct (repeat_n NUM_CONVERSATIONS (create_conversation users) c1)
      as [[c2 ev2] [e|[]]] eqn:Hrep;
      unfold events, result in Hbl, Hdone, Hevs; cbn [fst snd] in Hbl, Hdone, Hevs;
      change NUM_CONVERSATIONS with 15%nat in Hn, Hdone.
    + match goal with
      | |- context [bind _ ?k c1] =>
          destruct (@bind_inl _ _ (repeat_n NUM_CONVERSATIONS
                                             (create_conversation users))
                              k c1 _ _ _ Hrep) as [-> ->]
      end.
      cbn [app statements flat_map forallb is_log_or_statement andb].
      fold (statements (ev1 ++ ev2)).
      rewrite statements_app, Hst, Hbl, forallb_app, Hev, Hevs.
      split; [reflexivity|]. split; [lia|]. split; [intros _; assumption|].
      split; [assumption|]. split; [assumption|].
      split; [discriminate|reflexivity].
    + match goal with
      | |- context [bind _ ?k c1] =>
          destruct (@bind_inr _ _ (repeat_n NUM_CONVERSATIONS
                                             (create_conversation users))
                              k c1 _ _ _ Hrep) as [-> ->]
      end.
      do 2 step_log.
      unfold logger_info, emit, events, result.
      cbn [fst snd app statements flat_map forallb is_log_or_statement andb].
      fold (statements (ev1 ++ ev2 ++ [LogInfo ("Generated " ++ str_int (Z.of_nat NUM_CONVERSATIONS) ++ " conversations with messages"); LogInfo ("User IDs range from 1 to " ++ str_int NUM_USERS); LogInfo "Use these IDs for testing the API endpoints"])).
      rewrite !statements_app, Hst, Hbl, !forallb_app, Hev, Hevs.
      cbn [statements flat_map app forallb is_log_or_statement andb].
      rewrite app_nil_r.
      destruct (Hdone tt eq_refl) as [Hfif HF2].
      split; [reflexivity|]. split; [lia|]. split; [intros _; assumption|].
      split; [lia|]. split; [assumption|].
      split; [intros u _; now repeat split|reflexivity].
Qed.


Lemma message_for_is_message conversation_id user1_id user2_id s :
  message_for conversation_id user1_id user2_id s ->
  is_message s = true /\ is_user s = false /\ is_conversation s = false.
Proof. destruct s; cbn; tauto. Qed.

Lemma messages_counts conversation_id user1_id user2_id messages :
  Forall (message_for conversation_id user1_id user2_id) messages ->
  length (filter is_user messages) = 0%nat
  /\ length (filter is_conversation messages) = 0%nat
  /\ length (filter is_message messages) = length messages.
Proof.
  induction 1 as [|s messages Hs _ (IH1 & IH2 & IH3)]; cbn; [auto|].
  destruct (message_for_is_message _ _ _ _ Hs) as (-> & -> & ->).
  cbn. auto.
Qed.

Lemma blocks_counts users blocks :
  Forall (conversation_block users) blocks ->
  Forall (fun block => (2 <= length block)%nat) blocks ->
  length (filter is_user (concat blocks)) = 0%nat
  /\ length (filter is_conversation (concat blocks)) = length blocks
  /\ (length blocks <= length (filter is_message (concat blocks))
       <= 50 * length blocks)%nat.
Proof.
  induction 1 as [|block blocks Hb _ IH]; intros Hfull; cbn; [lia|].
  inversion Hfull as [|? ? Hlen Hrest]; subst.
  destruct (IH Hrest) as (IH1 & IH2 & IH3).
  destruct Hb as (cid & u1 & u2 & t & messages & i & j & -> & _ & _ & _ & _
                  & Hmax & Hmsgs).
  destruct (messages_counts Hmsgs) as (M1 & M2 & M3).
  rewrite !filter_app, !length_app. cbn in *. lia.
Qed.

Lemma user_statements_counts users :
  length users = 10%nat ->
  length (filter is_user (user_statements users)) = 10%nat
  /\ length (filter is_conversation (user_statements users)) = 0%nat
  /\ length (filter is_message (user_statements users)) = 0%nat.
Proof.
  intros Hlen. unfold user_statements.
  assert (Hall : forall l : list (Z * UUID),
             filter is_user (map (fun p => InsertUser (snd p)
                                             ("User " ++ str_int (fst p))) l)
             = map (fun p => InsertUser (snd p) ("User " ++ str_int (fst p))) l
             /\ filter is_conversation
                  (map (fun p => InsertUser (snd p)
                                   ("User " ++ str_int (fst p))) l) = []
             /\ filter is_message
                  (map (fun p => InsertUser (snd p)
                                   ("User " ++ str_int (fst p))) l) = []).
  { induction l as [|p l (IH1 & IH2 & IH3)];
      cbn [map filter is_user is_conversation is_message]; [auto|].
    now rewrite IH1, IH2, IH3. }
  destruct (Hall (combine user_numbers users)) as (-> & -> & ->).
  rewrite length_map, length_combine, Hlen. cbn. auto.
Qed.


(** The statements of a generation, finished or cut short by the
    driver, are the inserts of at most ten users, numbered from 1,
    followed by at most fifteen blocks, one per conversation.
    Conversations start only once all ten users exist.  Each block is a
    conversation insert between the users at two different positions of
    the list of created users, followed by at most 50 message inserts
    that all name this conversation and are sent by one of its two
    users. *)
Theorem generated_statements_are_consistent c :
  exists users blocks,
    statements (events (generate_test_data c))
    = user_statements users ++ concat blocks
    /\ (length users <= 10)%nat
    /\ (blocks <> [] -> length users = 10%nat)
    /\ (length blocks <= 15)%nat
    /\ Forall (conversation_block users) blocks.
Proof.
  destruct (generate_test_data_shape c)
    as (users & blocks & H1 & H2 & H3 & H4 & H5 & _).
  now exists users, blocks.
Qed.

(** A generation that returns has inserted exactly 10 users and 15
    conversations, and between 15 and 750 messages. *)
Theorem generated_counts c u :
  result (generate_test_data c) = inr u ->
  let inserted := statements (events (generate_test_data c)) in
  length (filter is_user inserted) = 10%nat
  /\ length (filter is_conversation inserted) = 15%nat
  /\ (15 <= length (filter is_message inserted) <= 750)%nat.
Proof.
  intros Hdone. cbv zeta.
  destruct (generate_test_data_shape c)
    as (users & blocks & -> & _ & _ & _ & HF & Hok & _).
  destruct (Hok u Hdone) as (Hten & Hfif & Hfull).
  destruct (user_statements_counts users Hten) as (U1 & U2 & U3).
  destruct (blocks_counts HF Hfull) as (B1 & B2 & B3).
  rewrite !filter_app, !length_app. lia.
Qed.

(** [main] never lets an exception out.  When the connection is made,
    the cluster is shut down exactly once, as the last action before
    the closing log record, whether the generation returned or raised.
    When it is not made, no statement is executed and nothing is shut
    down, also when the cluster object had been created before
    [connect] raised. *)
Theorem main_closes_what_it_opened c :
  result (main c) = inr tt
  /\ (connect_outcome = Connected ->
       exists before,
         events (main c)
         = before ++ [ClusterShutdown; LogInfo "Cassandra connection closed"]
         /\ ~ In ClusterShutdown before
         /\ statements before = statements (events (generate_test_data c)))
  /\ (connect_outcome <> Connected ->
       statements (events (main c)) = []
       /\ ~ In ClusterShutdown (events (main c)))
  /\ (forall message,
         connect_outcome = ConnectRaises message ->
         In ClusterCreated (events (main c))).
Proof.
  destruct (generate_test_data_shape c) as (_ & _ & _ & _ & _ & _ & _ & _ & Hev).
  unfold main, connect_to_cassandra, try_finally, try_except, bind,
         logger_info, logger_error, emit, ret, raise, events, result in *.
  destruct connect_outcome as [|message|message]; cbn [fst snd app].
  - destruct (generate_test_data c) as [[c1 evg] [e|[]]]; cbn [fst snd app] in *.
    all: split; [reflexivity|]; split; [|split; [congruence|discriminate]].
    all: intros _.
    + exists ([LogInfo "Connecting to Cassandra..."; ClusterCreated;
               LogInfo "Connected to Cassandra!"]
              ++ evg ++ [LogError ("Error generating test data: " ++ e)]).
      split; [now rewrite <- !app_assoc|]. split.
      * intros Hin. apply in_app_or in Hin. destruct Hin as [Hin|Hin].
        { cbn in Hin. intuition discriminate. }
        apply in_app_or in Hin. destruct Hin as [Hin|Hin].
        { rewrite forallb_forall in Hev. apply Hev in Hin. discriminate. }
        cbn in Hin. intuition discriminate.
      * rewrite !statements_app. cbn. now rewrite app_nil_r.
    + exists ([LogInfo "Connecting to Cassandra..."; ClusterCreated;
               LogInfo "Connected to Cassandra!"]
              ++ evg
              ++ [LogInfo "Test data generation completed successfully!"]).
      split; [now rewrite <- !app_assoc|]. split.
      * intros Hin. apply in_app_or in Hin. destruct Hin as [Hin|Hin].
        { cbn in Hin. intuition discriminate. }
        apply in_app_or in Hin. destruct Hin as [Hin|Hin].
        { rewrite forallb_forall in Hev. apply Hev in Hin. discriminate. }
        cbn in Hin. intuition discriminate.
      * rewrite !statements_app. cbn. now rewrite app_nil_r.
  - split; [reflexivity|]. split; [discriminate|]. split; [|discriminate].
    intros _. split; [reflexivity|]. cbn. intuition discriminate.
  - split; [reflexivity|]. split; [discriminate|]. split.
    + intros _. split; [reflexivity|]. cbn. intuition discriminate.
    + intros m _. cbn. auto.
Qed.


Section Accepting.
Hypothesis accepts : forall s, seed_raises s = None.

Lemma repeat_n_returns n (body : S unit) c :
  (forall c0, result (body c0) = inr tt) ->
  result (repeat_n n body c) = inr tt.
Proof.
  intros Hbody. revert c. induction n as [|n IH]; intros c; [reflexivity|].
  cbn [repeat_n]. specialize (Hbody c).
  destruct (body c) as [[c1 ev1] [e|[]]] eqn:Hrun; [discriminate|].
  destruct (@bind_inr _ _ body (fun _ => repeat_n n body) c c1 ev1 tt Hrun)
    as [_ ->].
  apply IH.
Qed.

Lemma create_message_returns conversation_id user1_id user2_id c :
  result (create_message conversation_id user1_id user2_id c) = inr tt.
Proof.
  unfold create_message, choice2, bind, draw, now, uuid4, randint, bind, draw,
         ret, execute, logger_info, emit, result.
  cbn [fst snd]. now rewrite accepts.
Qed.

Lemma create_conversation_returns users c :
  (2 <= length users)%nat ->
  result (create_conversation users c) = inr tt.
Proof.
  intros Hlen.
  destruct (sample2_run users c Hlen)
    as (c1 & user1_id & user2_id & i & j & Hs & _).
  unfold create_conversation.
  match goal with
  | |- context [bind (sample2 users) ?k c] =>
      destruct (@bind_inr _ _ (sample2 users) k c c1 [] (user1_id, user2_id) Hs)
        as [_ ->]
  end.
  cbv beta iota.
  unfold bind, uuid4, now, randint, bind, draw, ret, execute, logger_info, emit,
         result.
  cbn [fst snd]. rewrite accepts. cbn [fst snd].
  match goal with
  | |- context [repeat_n ?n ?body ?c'] =>
      pose proof (@repeat_n_returns n body c'
                    (create_message_returns _ user1_id user2_id)) as Hloop;
      unfold result in Hloop;
      destruct (repeat_n n body c') as [[c2 ev2] r]
  end.
  cbn [fst snd] in *. exact Hloop.
Qed.

Lemma create_users_return ids acc c :
  exists users, result (for_fold ids acc create_user c) = inr users.
Proof.
  revert acc c. induction ids as [|user_id ids IH]; intros acc c.
  - now exists acc.
  - cbn [for_fold].
    assert (Hrun : exists c1 ev1 users1,
               create_user user_id acc c = (c1, ev1, inr users1)).
    { unfold create_user, bind, uuid4, execute, logger_info, emit, ret.
      cbn [fst snd]. rewrite accepts. now eexists _, _, _. }
    destruct Hrun as (c1 & ev1 & users1 & Hrun).
    match goal with
    | |- context [bind _ ?k c] =>
        destruct (@bind_inr _ _ (create_user user_id acc) k c _ _ _ Hrun)
          as [_ ->]
    end.
    apply IH.
Qed.

Lemma generate_test_data_returns c : result (generate_test_data c) = inr tt.
Proof.
  unfold generate_test_data. do 2 step_log.
  destruct (create_users_return user_numbers [] c) as (users & Hres).
  destruct (create_users_shape user_numbers [] c) as (new & _ & _ & Hok & _).
  destruct (Hok users Hres) as [-> Hten]. cbn [app] in *.
  destruct (for_fold user_numbers [] create_user c) as [[c1 ev1] r] eqn:Hff.
  unfold result in Hres. cbn [snd] in Hres. subst r.
  match goal with
  | |- context [bind _ ?k c] =>
      destruct (@bind_inr _ _ (for_fold user_numbers [] create_user) k c _ _ _ Hff)
        as [_ ->]
  end.
  assert (Hloop : result (repeat_n NUM_CONVERSATIONS (create_conversation new) c1)
                  = inr tt).
  { apply repeat_n_returns. intros c0. apply create_conversation_returns.
    change (length user_numbers) with 10%nat in Hten. lia. }
  destruct (repeat_n NUM_CONVERSATIONS (create_conversation new) c1)
    as [[c2 ev2] r] eqn:Hrep.
  unfold result in Hloop. cbn [snd] in Hloop. subst r.
  match goal with
  | |- context [bind _ ?k c1] =>
      destruct (@bind_inr _ _ (repeat_n NUM_CONVERSATIONS (create_conversation new))
                          k c1 _ _ _ Hrep) as [_ ->]
  end.
  do 2 step_log. reflexivity.
Qed.

End Accepting.

(** With a driver that accepts every statement the generation always
    returns, whatever the random draws, identifiers and clock readings
    are. *)
Theorem generation_returns_when_driver_accepts c :
  (forall s, seed_raises s = None) ->
  result (generate_test_data c) = inr tt.
Proof. intros accepts. now apply generate_test_data_returns. Qed.


Lemma stops_bind {A B} (m : S A) (k : A -> S B) c :
  stops_at_refusal (m c) ->
  (forall c1 ev1 a, m c = (c1, ev1, inr a) -> stops_at_refusal (k a c1)) ->
  stops_at_refusal (bind m k c).
Proof.
  intros [Hok Hfail] Hk.
  destruct (m c) as [[c1 ev1] [e|a]] eqn:Hrun.
  - destruct (@bind_inl _ _ m k c c1 ev1 e Hrun) as [He Hr].
    unfold stops_at_refusal. rewrite He, Hr. split; [discriminate|].
    intros e' He'. injection He' as <-. now apply (Hfail e).
  - destruct (@bind_inr _ _ m k c c1 ev1 a Hrun) as [He Hr].
    destruct (Hk c1 ev1 a eq_refl) as [Hkok Hkfail].
    specialize (Hok a eq_refl). unfold events in Hok. cbn [fst snd] in Hok.
    unfold stops_at_refusal. rewrite He, Hr, statements_app. split.
    + intros b Hb. apply Forall_app. split; [assumption|now apply (Hkok b)].
    + intros e Hfails. destruct (Hkfail e Hfails) as (before & s & Hst & HF & Hs).
      exists (statements ev1 ++ before), s. rewrite Hst, app_assoc.
      split; [reflexivity|]. split; [|assumption].
      apply Forall_app. now split.
Qed.

Lemma stops_quiet {A} (m : S A) c :
  (exists c1 a, m c = (c1, [], inr a)) -> stops_at_refusal (m c).
Proof.
  intros (c1 & a & ->). split; [intros; constructor|discriminate].
Qed.

Lemma stops_log text c : stops_at_refusal (logger_info text c).
Proof. split; [intros; constructor|discriminate]. Qed.

Lemma stops_execute s c : stops_at_refusal (execute s c).
Proof.
  unfold execute. destruct (seed_raises s) as [message|] eqn:Hs; split;
    unfold result, events; cbn; try discriminate.
  - intros e He. injection He as <-. now exists [], s.
  - intros _ _. now repeat constructor.
Qed.

Lemma stops_repeat_n n (body : S unit) c :
  (forall c0, stops_at_refusal (body c0)) ->
  stops_at_refusal (repeat_n n body c).
Proof.
  intros Hbody. revert c. induction n as [|n IH]; intros c.
  - split; [intros; constructor|discriminate].
  - cbn [repeat_n]. apply stops_bind; [apply Hbody|]. intros. apply IH.
Qed.

Lemma stops_create_message conversation_id user1_id user2_id c :
  stops_at_refusal (create_message conversation_id user1_id user2_id c).
Proof.
  unfold create_message.
  repeat (apply stops_bind;
          [first [apply stops_execute | apply stops_log
                 | apply stops_quiet; now eexists _, _]
          |intros ? ? ? _]).
  apply stops_log.
Qed.

Lemma stops_create_conversation users c :
  (2 <= length users)%nat ->
  stops_at_refusal (create_conversation users c).
Proof.
  intros Hlen. unfold create_conversation.
  apply stops_bind.
  { destruct (sample2_run users c Hlen) as (c1 & u1 & u2 & _ & _ & Hs & _).
    apply stops_quiet. now exists c1, (u1, u2). }
  intros c1 ev1 [user1_id user2_id] _.
  repeat (apply stops_bind;
          [first [apply stops_execute | apply stops_log
                 | apply stops_quiet; now eexists _, _]
          |intros ? ? ? _]).
  apply stops_repeat_n. intros cursors. apply stops_create_message.
Qed.

Lemma stops_create_users ids acc c :
  stops_at_refusal (for_fold ids acc create_user c).
Proof.
  revert acc c. induction ids as [|user_id ids IH]; intros acc c.
  - split; [intros; constructor|discriminate].
  - cbn [for_fold]. apply stops_bind; [|intros; apply IH].
    unfold create_user.
    repeat (apply stops_bind;
            [first [apply stops_execute | apply stops_log
                   | apply stops_quiet; now eexists _, _]
            |intros ? ? ? _]).
    apply stops_quiet. now eexists _, _.
Qed.

(** The generation has no [try]: it executes statements until the
    driver refuses one, and then raises what the driver raised.  In a
    generation that returns every statement was accepted; in one that
    raises, the refused statement is the last one executed, all before
    it were accepted, and the exception carries the driver's message. *)
Theorem generation_stops_at_first_refusal c :
  (forall u, result (generate_test_data c) = inr u ->
             Forall (fun s => seed_raises s = None)
                    (statements (events (generate_test_data c))))
  /\ (forall e, result (generate_test_data c) = inl e ->
                exists before s,
                  statements (events (generate_test_data c)) = before ++ [s]
                  /\ Forall (fun s' => seed_raises s' = None) before
                  /\ seed_raises s = Some e).
Proof.
  change (stops_at_refusal (generate_test_data c)).
  unfold generate_test_data.
  apply stops_bind; [apply stops_log|intros cursors1 ? ? _].
  apply stops_bind; [apply stops_log|intros cursors2 ? ? _].
  apply stops_bind; [apply stops_create_users|].
  intros cursors3 events3 users Hff.
  destruct (create_users_shape user_numbers [] cursors2) as (new & _ & _ & Hok & _).
  rewrite Hff in Hok. destruct (Hok users eq_refl) as [_ Hten].
  destruct (Hok users eq_refl) as [-> _]. cbn [app] in *.
  change (length user_numbers) with 10%nat in Hten.
  apply stops_bind.
  { apply stops_repeat_n. intros cursors. apply stops_create_conversation. lia. }
  intros cursors4 ? ? _.
  apply stops_bind; [apply stops_log|intros cursors5 ? ? _].
  apply stops_bind; [apply stops_log|intros cursors6 ? ? _].
  apply stops_log.
Qed.

End SeedRuns.

(** * The further properties at work *)

Lemma has_more_iff_rows_reach_page_end_witness :
  0 < 2 /\ 0 < 2
  /\ outcome (@MessageController.get_conversation_messages healthy 7 2 2 sample_store)
     = inr sample_page_2
  /\ (pm_has_more sample_page_2 = true
      <-> 2 * 2 <= Py.len (messages_of 7 sample_store)).
Proof.
  split; [reflexivity|]. split; [reflexivity|]. split; [reflexivity|].
  apply (proj1 (proj2 (@has_more_iff_rows_reach_page_end healthy 2 2
                         eq_refl eq_refl))
           7 sample_store sample_page_2).
  reflexivity.
Defined.

Lemma no_more_means_next_page_empty_witness :
  exists resp next,
    outcome (@ConversationController.get_user_conversations healthy 1 3 2
               sample_store) = inr resp
    /\ outcome (@ConversationController.get_user_conversations healthy 1 (3 + 1) 2
                  sample_store) = inr next
    /\ pc_has_more resp = false
    /\ pc_conversations next = [] /\ pc_has_more next = false.
Proof.
  eexists _, _. split; [reflexivity|]. split; [reflexivity|].
  split; [reflexivity|].
  apply (proj1 (@no_more_means_next_page_empty healthy 3 2 sample_store
                  eq_refl eq_refl) 1
           (mkPaginatedConversationResponse
              [mkConversationResponse 14 6 (Some 540)] 3 2 false));
    reflexivity.
Defined.

Lemma pages_concatenate_to_prefix_witness :
  concat (map pm_messages
              [mkPaginatedMessageResponse
                 [mkMessageResponse 1%N 7 1 "a" 100;
                  mkMessageResponse 3%N 7 2 "b" 200] 1 2 true;
               sample_page_2])
  = map (MessageController.message_of_row 7)
        (firstn (2 * Z.to_nat 2) (messages_of 7 sample_store)).
Proof.
  apply (proj1 (proj2 (@pages_concatenate_to_prefix healthy 2 2 sample_store
                         eq_refl)) 7).
  repeat constructor.
Defined.

Lemma nonpositive_limit_pages_witness :
  outcome (@ConversationController.get_user_conversations healthy 1 1 0 sample_store)
  = inr (mkPaginatedConversationResponse [] 1 0 true)
  /\ pc_has_more (mkPaginatedConversationResponse [] 1 0 true) = (0 =? 0).
Proof.
  split; [reflexivity|].
  apply (proj1 (@nonpositive_limit_pages healthy 1 0 ltac:(lia))
           1 sample_store (mkPaginatedConversationResponse [] 1 0 true)).
  reflexivity.
Defined.

Lemma page_zero_is_empty_witness :
  outcome (@ConversationController.get_user_conversations healthy 1 0 2 sample_store)
  = inr (mkPaginatedConversationResponse [] 0 2 false)
  /\ pc_conversations (mkPaginatedConversationResponse [] 0 2 false) = [].
Proof.
  split; [reflexivity|].
  apply (proj1 (@page_zero_is_empty healthy 2)
           1 sample_store (mkPaginatedConversationResponse [] 0 2 false)).
  reflexivity.
Defined.

Lemma every_page_is_a_run_of_rows_witness :
  exists before run after,
    rows_of_user 1 sample_store = before ++ run ++ after
    /\ pc_conversations sample_page_minus_1
       = map ConversationController.conversation_of_row run.
Proof.
  apply (proj1 (@every_page_is_a_run_of_rows healthy (-1) 2)
           1 sample_store sample_page_minus_1).
  reflexivity.
Defined.

Lemma read_failures_are_session_error_or_500_witness :
  outcome (@Method.get_conversation_messages strict_limit ready 7 0 2 sample_store)
  = inl (HTTPException 500 "LIMIT must be strictly positive")
  /\ outcome (@Method.get_user_conversations healthy no_session 1 1 2 sample_store)
     = inl (DriverError "Cassandra session is not initialised")
  /\ outcome (@Method.get_conversation healthy ready 42 sample_store)
     = inl (HTTPException 500 "Conversation not found").
Proof.
  split; [|split].
  - apply (proj1 (proj2 (@read_failures_are_session_error_or_500
                           strict_limit ready sample_store
                           (HTTPException 500 "LIMIT must be strictly positive")))
             7 0 2).
    right. split; [reflexivity|].
    exists "LIMIT must be strictly positive". split; reflexivity.
  - apply (proj1 (@read_failures_are_session_error_or_500
                    healthy no_session sample_store
                    (DriverError "Cassandra session is not initialised"))
             1 1 2).
    left. reflexivity.
  - apply (proj2 (proj2 (proj2 (@read_failures_are_session_error_or_500
                                  healthy ready sample_store
                                  (HTTPException 500 "Conversation not found"))))
             42).
    right. right. repeat split; reflexivity.
Defined.

Lemma send_message_failure_is_partial_witness :
  (outcome (@Method.send_message refusing_participants ready
              (mkMessageCreate 7 1 2 "hi") 99%N 1000 empty_store)
   = inl (DriverError "write timeout")
   /\ executed (@Method.send_message refusing_participants ready
                  (mkMessageCreate 7 1 2 "hi") 99%N 1000 empty_store)
      = [ InsertMessage (mkMessageRow 7 99%N 1 "hi" 1000);
          InsertParticipant (mkParticipantRow 7 1) ]
   /\ store_after (@Method.send_message refusing_participants ready
                     (mkMessageCreate 7 1 2 "hi") 99%N 1000 empty_store)
      = mkStore [] [] [mkMessageRow 7 99%N 1 "hi" 1000])
  /\ (outcome (@Method.send_message healthy no_session
                 (mkMessageCreate 7 1 2 "hi") 99%N 1000 empty_store)
      = inl (DriverError "Cassandra session is not initialised")
      /\ executed (@Method.send_message healthy no_session
                     (mkMessageCreate 7 1 2 "hi") 99%N 1000 empty_store) = []
      /\ store_after (@Method.send_message healthy no_session
                        (mkMessageCreate 7 1 2 "hi") 99%N 1000 empty_store)
         = empty_store).
Proof.
  split.
  - apply (proj1 (proj2 (@send_message_failure_is_partial
                           refusing_participants ready
                           (mkMessageCreate 7 1 2 "hi") 99%N 1000 empty_store))
             [InsertMessage (mkMessageRow 7 99%N 1 "hi" 1000)]
             (InsertParticipant (mkParticipantRow 7 1))
             [ InsertParticipant (mkParticipantRow 7 2);
               InsertConversationByUser (mkConversationByUserRow 1 7 2 1000);
               InsertConversationByUser (mkConversationByUserRow 2 7 1 1000) ]
             "write timeout").
    + reflexivity.
    + reflexivity.
    + repeat constructor.
    + reflexivity.
  - apply (proj1 (@send_message_failure_is_partial healthy no_session
                    (mkMessageCreate 7 1 2 "hi") 99%N 1000 empty_store)
             (DriverError "Cassandra session is not initialised")).
    reflexivity.
Defined.

Lemma send_message_leaves_other_readers_witness :
  outcome (@MessageController.get_conversation_messages healthy 8 1 5
             (store_after (@MessageController.send_message healthy
                             (mkMessageCreate 7 1 2 "hi") 99%N 1000 sample_store)))
  = outcome (@MessageController.get_conversation_messages healthy 8 1 5 sample_store).
Proof.
  refine (proj1 (proj1 (@send_message_leaves_other_readers healthy
                          (mkMessageCreate 7 1 2 "hi") 99%N 1000 sample_store)
                   8 _) 1 5).
  simpl. lia.
Defined.

Lemma sent_message_is_read_back_witness :
  exists page_resp,
    outcome (@MessageController.get_conversation_messages healthy 7 1 10
               (store_after (@MessageController.send_message healthy
                               (mkMessageCreate 7 1 2 "hi") 99%N 1000 sample_store)))
    = inr page_resp
    /\ Permutation (pm_messages page_resp)
                   (mkMessageResponse 99%N 7 1 "hi" 1000
                    :: map (MessageController.message_of_row 7)
                           (messages_of 7 sample_store)).
Proof.
  eexists. split; [reflexivity|].
  apply (@sent_message_is_read_back healthy (mkMessageCreate 7 1 2 "hi")
           99%N 1000 sample_store (mkMessageResponse 99%N 7 1 "hi" 1000) 10).
  - reflexivity.
  - intros row Hrow. vm_compute in Hrow.
    destruct Hrow as [<-|[<-|[<-|[<-|[]]]]]; discriminate.
  - reflexivity.
  - reflexivity.
Defined.

Lemma conversation_is_found_after_send_witness :
  exists participant_id,
    outcome (@ConversationController.get_conversation healthy 9
               (store_after (@MessageController.send_message healthy
                               (mkMessageCreate 9 1 2 "hi") 99%N 1000 sample_store)))
    = inr (mkConversationResponse 9 participant_id None)
    /\ (participant_id = 1 \/ participant_id = 2
        \/ In participant_id
              (map cp_participant_id (participants_of 9 sample_store))).
Proof.
  apply (@conversation_is_found_after_send healthy (mkMessageCreate 9 1 2 "hi")
           99%N 1000 sample_store (mkMessageResponse 99%N 9 1 "hi" 1000));
    reflexivity.
Defined.

Lemma conversation_is_listed_after_send_witness :
  exists listing,
    outcome (@ConversationController.get_user_conversations healthy 1 1 10
               (store_after (@MessageController.send_message healthy
                               (mkMessageCreate 10 1 2 "hi") 99%N 1000 sample_store)))
    = inr listing
    /\ filter (fun c => cr_conversation_id c =? 10) (pc_conversations listing)
       = [mkConversationResponse 10 2 (Some 1000)].
Proof.
  eexists. split; [reflexivity|].
  apply (proj1 (@conversation_is_listed_after_send healthy
                  (mkMessageCreate 10 1 2 "hi") 99%N 1000 sample_store
                  (mkMessageResponse 99%N 10 1 "hi" 1000) 10
                  eq_refl eq_refl)).
  - vm_compute. discriminate.
  - reflexivity.
Defined.

Lemma generated_statements_are_consistent_witness :
  exists users blocks,
    Seed.statements (Seed.events (@Seed.generate_test_data steady_host Seed.start))
    = @Seed.user_statements steady_host users ++ concat blocks
    /\ (length users <= 10)%nat
    /\ (blocks <> [] -> length users = 10%nat)
    /\ (length blocks <= 15)%nat
    /\ Forall (@Seed.conversation_block steady_host users) blocks.
Proof.
  exact (@generated_statements_are_consistent steady_host Seed.start).
Defined.

Lemma generated_counts_witness :
  length (filter Seed.is_user
            (Seed.statements
               (Seed.events (@Seed.generate_test_data steady_host Seed.start))))
  = 10%nat
  /\ length (filter Seed.is_conversation
               (Seed.statements
                  (Seed.events (@Seed.generate_test_data steady_host Seed.start))))
     = 15%nat
  /\ (15 <= length (filter Seed.is_message
                      (Seed.statements
                         (Seed.events (@Seed.generate_test_data steady_host
                                         Seed.start))))
      <= 750)%nat.
Proof.
  apply (@generated_counts steady_host Seed.start tt).
  vm_compute. reflexivity.
Defined.

Lemma main_closes_what_it_opened_witness :
  exists before,
    Seed.events (@Seed.main steady_host Seed.start)
    = before ++ [Seed.ClusterShutdown; Seed.LogInfo "Cassandra connection closed"]
    /\ ~ In Seed.ClusterShutdown before
    /\ Seed.statements before
       = Seed.statements
           (Seed.events (@Seed.generate_test_data steady_host Seed.start)).
Proof.
  apply (proj1 (proj2 (@main_closes_what_it_opened steady_host Seed.start))).
  reflexivity.
Defined.

Lemma generation_returns_when_driver_accepts_witness :
  Seed.result (@Seed.generate_test_data steady_host Seed.start) = inr tt.
Proof.
  apply (@generation_returns_when_driver_accepts steady_host Seed.start).
  intros s. reflexivity.
Defined.

Lemma generation_stops_at_first_refusal_witness :
  exists before s,
    Seed.statements
      (Seed.events (@Seed.generate_test_data refusing_host Seed.start))
    = before ++ [s]
    /\ Forall (fun s' => @Seed.seed_raises refusing_host s' = None) before
    /\ @Seed.seed_raises refusing_host s = Some "unconfigured table messages".
Proof.
  apply (proj2 (@generation_stops_at_first_refusal refusing_host Seed.start)).
  vm_compute. reflexivity.
Defined.
